(** * Ring-road generator and scenario of [tutorials/tutorial05_scenarios.ipynb]

    The notebook defines a generator ([specify_nodes], [specify_edges],
    [specify_routes]) and a scenario ([specify_edge_starts]) for a ring road
    made of four quarter-circle edges.  This development embeds those four
    methods and the queries the specification builds on their results.

    Numbers.  Python distinguishes [int] from [float], and a [float] is an
    IEEE binary64 number.  The four methods are embedded twice.

    - The module [Binary64] follows Python's arithmetic: an [int] is
      unbounded, a product or a quotient of floats is rounded to nearest,
      overflows to an infinity and knows NaN and signed zeros, and an [int]
      that cannot be converted to a [float] raises [OverflowError] at the
      operation where the code converts it.  ["%.2f"] is computed on the
      exact value of the float.  [numpy.cos], [numpy.sin] and [repr] of a
      float belong to the platform and are parameters ([Platform]).  Every
      statement on the value of a length, of an offset or of a coordinate,
      on the string of a float, or on what a method raises, is made on this
      model.

    - The section [Ring] reads a [float] as a real number: [numpy.pi] is
      [PI], [numpy.cos] is [cos] and arithmetic is exact, so that rounding,
      overflow and [OverflowError] are outside it.  It carries the
      statements that do not depend on the value of any float (ids, from
      and to nodes, routes, the keys each method reads, coordinates that are
      the radius itself) and the position queries of the specification,
      which the notebook does not contain and the specification states up
      to a tolerance.

    Strings.  ["%.2f"] is modelled in full in both.  [repr] of an [int] is
    its decimal numeral; [repr] of a float is a parameter.

    Queries.  [next_edge], [global_position] and [locate] belong to the base
    classes the notebook imports, not to the notebook; they are modelled
    from the specification. *)

From Stdlib Require Import Reals Lra Lia ZArith String Ascii List.
From Stdlib Require Import DecimalString DecimalN DecimalPos DecimalZ Floats.
From Stdlib Require Import Machin Sorted.
From stdpp Require Import gmap strings list fin_maps.

(** ** Python values *)

Module Py.

(** A Python number: [int] (unbounded) or [float] (idealised as a real). *)
Inductive num : Type :=
  | Int (z : Z)
  | Float (x : R).

Definition to_real (n : num) : R :=
  match n with
  | Int z => IZR z
  | Float x => x
  end.

(** [a * b]: an [int] when both operands are, a [float] otherwise. *)
Definition mul (a b : num) : num :=
  match a, b with
  | Int x, Int y => Int (x * y)
  | _, _ => Float (to_real a * to_real b)
  end.

(** [a / b] is true division: always a [float].  Every divisor in the
    notebook is the literal [2], so [ZeroDivisionError] cannot arise. *)
Definition div (a b : num) : num := Float (to_real a / to_real b).

(** Unary minus keeps the type of its operand. *)
Definition neg (a : num) : num :=
  match a with
  | Int x => Int (- x)
  | Float x => Float (- x)
  end.

(** [numpy.pi] *)
Definition pi : num := Float PI.

(** The objects stored in the descriptors: numbers and strings. *)
Inductive value : Type :=
  | Num (n : num)
  | Str (s : string).

(** An exception: the name of its class and its argument. *)
Inductive exn : Type :=
  | Raise (cls : string) (arg : string).

(** What [d[key]] raises when [key] is not in the dict [d]. *)
Definition KeyError (key : string) : exn := Raise "KeyError" key.

Definition exn_class (e : exn) : string :=
  match e with
  | Raise cls _ => cls
  end.

(** The outcome of a call: a returned value or a raised exception. *)
Inductive result (A : Type) : Type :=
  | Ok (a : A)
  | Err (e : exn).
Arguments Ok {A} a.
Arguments Err {A} e.

#[global] Instance result_ret : MRet result := fun A a => Ok a.
#[global] Instance result_bind : MBind result := fun A B f m =>
  match m with
  | Ok a => f a
  | Err e => Err e
  end.

(** [d[key]] on a dict *)
Definition getitem {V : Type} (d : gmap string V) (key : string) : result V :=
  match d !! key with
  | Some v => Ok v
  | None => Err (KeyError key)
  end.

(** [repr] of an [int]: its decimal numeral. *)
Definition repr_int (z : Z) : string := NilZero.string_of_int (Z.to_int z).

(** *** ["%.2f" % x]

    The conversion prints the decimal numeral with two fractional digits
    nearest to [x], ties going to the even neighbour, and a minus sign
    whenever [x] is negative (also when the digits are all zero). *)

(** Nearest integer, ties to even. *)
Definition round_half_even (x : R) : Z :=
  let f := Int_part x in
  let d := (x - IZR f)%R in
  if Rlt_dec d (1 / 2) then f
  else if Rlt_dec (1 / 2) d then (f + 1)%Z
  else if Z.even f then f else (f + 1)%Z.

(** A numeral with two fractional digits: sign and count of hundredths. *)
Record dec2 : Type := Dec2 { negative : bool; hundredths : Z }.

Definition to_dec2 (x : R) : dec2 :=
  {| negative := if Rlt_dec x 0 then true else false;
     hundredths := round_half_even (100 * Rabs x) |}.

(** The number a numeral denotes. *)
Definition dec2_value (d : dec2) : R :=
  ((if negative d then -1 else 1) * IZR (hundredths d) / 100)%R.

Definition digit (d : Z) : ascii := ascii_of_nat (48 + Z.to_nat d).

Definition show_dec2 (d : dec2) : string :=
  let n := hundredths d in
  (if negative d then "-" else "")
  +:+ NilZero.string_of_uint (N.to_uint (Z.to_N (n / 100)))
  +:+ String "." (String (digit ((n / 10) mod 10))
                    (String (digit (n mod 10)) EmptyString)).

Definition format_2f (x : R) : string := show_dec2 (to_dec2 x).

(** *** Reading a shape string back *)

Definition is_digit (c : ascii) : bool :=
  (48 <=? nat_of_ascii c)%nat && (nat_of_ascii c <=? 57)%nat.

(** One or more digits, a point, and exactly two digits; [seen] tells
    whether a digit has been read already. *)
Fixpoint is_fixed2 (seen : bool) (s : string) : bool :=
  match s with
  | EmptyString => false
  | String c t =>
      if is_digit c then is_fixed2 true t
      else if Ascii.eqb c "." then
        seen && match t with
                | String a (String b EmptyString) => is_digit a && is_digit b
                | _ => false
                end
      else false
  end.

(** A numeral with exactly two decimal places, with or without a sign. *)
Definition is_2f (s : string) : bool :=
  match s with
  | String c t => if Ascii.eqb c "-" then is_fixed2 false t else is_fixed2 false s
  | EmptyString => false
  end.

(** [s.split(sep)] for a one-character separator. *)
Fixpoint split_on (sep : ascii) (s : string) : list string :=
  match s with
  | EmptyString => [EmptyString]
  | String c t =>
      if Ascii.eqb c sep then EmptyString :: split_on sep t
      else match split_on sep t with
           | w :: ws => String c w :: ws
           | [] => [String c EmptyString]
           end
  end.

(** ["x,y"] with both coordinates to two decimal places. *)
Definition is_pair (s : string) : bool :=
  match split_on "," s with
  | [x; y] => is_2f x && is_2f y
  | _ => false
  end.

(** A space-separated sequence of such pairs. *)
Definition is_shape (s : string) : bool := forallb is_pair (split_on " " s).

(** The value of a digit character. *)
Definition digit_value (c : ascii) : option Z :=
  if is_digit c then Some (Z.of_nat (nat_of_ascii c) - 48)%Z else None.

(** The numeral a string spells, when it has the form
    [[-]digits.digit digit]. *)
Definition read_2f (s : string) : option dec2 :=
  let '(neg, body) :=
    match s with
    | String c t => if Ascii.eqb c "-" then (true, t) else (false, s)
    | EmptyString => (false, s)
    end in
  match split_on "." body with
  | [ip; String a (String b EmptyString)] =>
      u ← NilZero.uint_of_string ip;
      da ← digit_value a;
      db ← digit_value b;
      Some (Dec2 neg (100 * Z.of_N (N.of_uint u) + 10 * da + db))
  | _ => None
  end.

Definition read_pair (s : string) : option (dec2 * dec2) :=
  match split_on "," s with
  | [x; y] => a ← read_2f x; b ← read_2f y; Some (a, b)
  | _ => None
  end.

Fixpoint all_digits (s : string) : bool :=
  match s with
  | EmptyString => true
  | String c t => is_digit c && all_digits t
  end.

(** [c] does not occur in [s]. *)
Fixpoint lacks (c : ascii) (s : string) : bool :=
  match s with
  | EmptyString => true
  | String a t => negb (Ascii.eqb a c) && lacks c t
  end.

(** A stand-in for [repr] on floats, for the places where a concrete
    function is needed: it prints two decimal places. *)
Definition repr_2f (x : R) : string := format_2f x.

(** [sep.join(l)] *)
Definition join (sep : string) (l : list string) : string := String.concat sep l.

(** *** [numpy.linspace(start, stop, num)]

    [num] evenly spaced samples over the closed interval: the samples are
    [arange(num) * step + start] with [step = (stop - start) / (num - 1)],
    and the last one is then overwritten with [stop]. *)
Definition linspace (start stop : R) (n : nat) : list R :=
  let step := ((stop - start) / INR (n - 1))%R in
  let y := map (fun i => (INR i * step + start)%R) (seq 0 n) in
  if (1 <? n)%nat then <[(n - 1)%nat := stop]> y else y.

End Py.

Declare Scope py_scope.
Delimit Scope py_scope with py.
Bind Scope py_scope with Py.num.
Infix "*" := Py.mul : py_scope.
Infix "/" := Py.div : py_scope.
Notation "- x" := (Py.neg x) : py_scope.

Import Py.

(** ** Real arithmetic used by the position queries *)

(** [x % m] on floats: the remainder has the sign of [m]. *)
Definition Rmod (x m : R) : R := (x - IZR (Int_part (x / m)) * m)%R.


(** [net_params]: the only attribute the notebook reads is the dict
    [additional_params]. *)
Record NetParams : Type := { additional_params : gmap string num }.

(** The default parameters of the notebook (section 1.1). *)
Definition ADDITIONAL_NET_PARAMS : gmap string num :=
  {[ "radius" := Int 40; "num_lanes" := Int 1; "speed_limit" := Int 30 ]}.

(** [NetParams(additional_params=ADDITIONAL_NET_PARAMS.copy())] *)
Definition net_params : NetParams :=
  {| additional_params := ADDITIONAL_NET_PARAMS |}.

(** Parameters without a radius. *)
Definition no_radius : NetParams :=
  {| additional_params := {[ "num_lanes" := Int 1; "speed_limit" := Int 30 ]} |}.

(** Parameters with a radius only. *)
Definition radius_only : NetParams :=
  {| additional_params := {[ "radius" := Int 40 ]} |}.

(** Parameters with the default radius, two lanes and another speed limit. *)
Definition two_lanes : NetParams :=
  {| additional_params :=
       {[ "radius" := Int 40; "num_lanes" := Int 2; "speed_limit" := Int 15 ]} |}.

(** The attributes of a node and of an edge, before they are turned into
    the strings of the descriptor. *)
Record Node : Type :=
  { node_id : string; node_x : num; node_y : num }.

Record Edge : Type :=
  { edge_id : string;
    edge_lanes : num;
    edge_speed : num;
    edge_from : string;
    edge_to : string;
    edge_length : num;
    edge_shape : list (R * R) }.

(** ** The notebook on binary64 numbers

    The four methods once more, with Python's numbers as they are: an
    [int] is unbounded, a [float] is an IEEE binary64 number with its
    rounding, infinities, NaN and signed zeros, and an [int] that meets a
    [float] in a product or a quotient is converted first, which raises
    [OverflowError] when it is too large.  Every statement about the value
    of a number, about the string of a float or about what a method raises
    is made on this model.

    [numpy.cos], [numpy.sin] and [repr] of a float belong to the platform
    and are parameters ([Platform]). *)

Module Binary64.

(** A Python number: [int] or [float]. *)
Inductive num : Type :=
  | Int (z : Z)
  | Float (f : float).

(** The objects stored in the descriptors: numbers and strings. *)
Inductive value : Type :=
  | Num (n : num)
  | Str (s : string).

Definition is_float (v : value) : bool :=
  match v with
  | Num (Float _) => true
  | _ => false
  end.

Definition is_str (v : value) : bool :=
  match v with
  | Str _ => true
  | _ => false
  end.

Definition OverflowError (msg : string) : exn := Raise "OverflowError" msg.

Definition ZeroDivisionError (msg : string) : exn :=
  Raise "ZeroDivisionError" msg.

(** The binary64 number nearest to [m * 2^e], ties to even: an infinity
    when the rounded number is out of range, the zero of sign [szero] when
    [m] is [0]. *)
Definition nearest (m e : Z) (szero : bool) : float :=
  SF2Prim (binary_normalize prec emax m e szero).

(** [math.isfinite(f)] *)
Definition finite (f : float) : bool :=
  match Prim2SF f with
  | S754_zero _ | S754_finite _ _ _ => true
  | _ => false
  end.

(** The conversion of an [int] operand to [float]. *)
Definition float_of_int (z : Z) : result float :=
  let f := nearest z 0 false in
  if finite f then Ok f
  else Err (OverflowError "int too large to convert to float").

Definition to_float (n : num) : result float :=
  match n with
  | Int z => float_of_int z
  | Float f => Ok f
  end.

(** [x / y] on two [int]s: the binary64 number nearest to the quotient.
    The quotient is first cut to at least 55 significant bits, with one
    more bit that tells whether anything was cut off, so that rounding it
    is rounding the quotient itself. *)
Definition int_true_divide (x y : Z) : result float :=
  if (y =? 0)%Z then Err (ZeroDivisionError "division by zero")
  else
    let negative := xorb (x <? 0)%Z (y <? 0)%Z in
    let a := Z.abs x in
    let b := Z.abs y in
    let k := Z.max 0 (55 + Z.log2 b - Z.log2 a) in
    let n := (a * 2 ^ k)%Z in
    let m := (2 * (n / b) + (if (n mod b =? 0)%Z then 0 else 1))%Z in
    let f := nearest (if negative then - m else m) (- k - 1) negative in
    if finite f then Ok f
    else Err (OverflowError "integer division result too large for a float").

(** [a * b]: an [int] when both operands are, a [float] otherwise.  A
    product of floats that is out of range is an infinity, not an error. *)
Definition mul (a b : num) : result num :=
  match a, b with
  | Int x, Int y => Ok (Int (x * y))
  | _, _ => x ← to_float a; y ← to_float b; Ok (Float (x * y))
  end.

(** [a / b] is true division: always a [float]. *)
Definition div (a b : num) : result num :=
  match a, b with
  | Int x, Int y => f ← int_true_divide x y; Ok (Float f)
  | _, _ =>
      x ← to_float a;
      y ← to_float b;
      if (y =? 0)%float then Err (ZeroDivisionError "float division by zero")
      else Ok (Float (x / y))
  end.

(** Unary minus keeps the type of its operand and never fails. *)
Definition neg (a : num) : num :=
  match a with
  | Int x => Int (- x)
  | Float x => Float (- x)
  end.

(** [numpy.pi], the binary64 number nearest to pi. *)
Definition pi : num := Float 0x1.921fb54442d18p+1.

(** Expressions: the operands are evaluated from left to right and the
    first exception ends the evaluation. *)
Definition val (n : num) : result num := Ok n.

Definition mul_ (a b : result num) : result num := x ← a; y ← b; mul x y.

Definition div_ (a b : result num) : result num := x ← a; y ← b; div x y.

Definition neg_ (a : result num) : result num := x ← a; Ok (neg x).

Coercion val : num >-> result.

Declare Scope b64_scope.
Delimit Scope b64_scope with b64.
Infix "*" := mul_ : b64_scope.
Infix "/" := div_ : b64_scope.
Notation "- x" := (neg_ x) : b64_scope.

(** The product of a number and a [numpy.float64] is a [numpy.float64]. *)
Definition mul_float64 (a : num) (c : float) : result float :=
  x ← to_float a; Ok (x * c)%float.

(** *** ["%.2f" % f] *)

(** The number of hundredths nearest to [m * 2^e], ties to even. *)
Definition hundredths_of (m : positive) (e : Z) : Z :=
  let n := (100 * Z.pos m)%Z in
  if (0 <=? e)%Z then (n * 2 ^ e)%Z
  else
    let d := (2 ^ (- e))%Z in
    let q := (n / d)%Z in
    match (2 * (n mod d) ?= d)%Z with
    | Lt => q
    | Gt => (q + 1)%Z
    | Eq => if Z.even q then q else (q + 1)%Z
    end.

(** The two-decimal numeral nearest to a finite number; the sign is that of
    the number, also when the digits are all zero. *)
Definition dec2_of_float (f : float) : option dec2 :=
  match Prim2SF f with
  | S754_zero s => Some (Dec2 s 0)
  | S754_finite s m e => Some (Dec2 s (hundredths_of m e))
  | _ => None
  end.

Definition format_2f (f : float) : string :=
  match Prim2SF f with
  | S754_zero s => show_dec2 (Dec2 s 0)
  | S754_finite s m e => show_dec2 (Dec2 s (hundredths_of m e))
  | S754_infinity s => if s then "-inf" else "inf"
  | S754_nan => "nan"
  end.

(** *** [numpy.linspace(start, stop, num)] *)

Definition float_of_nat (n : nat) : float := nearest (Z.of_nat n) 0 false.

(** The samples are [arange(num) * step + start] with
    [step = (stop - start) / (num - 1)], each operation rounded, and the
    last sample is then overwritten with [stop]. *)
Definition linspace (start stop : float) (n : nat) : list float :=
  let div := float_of_nat (n - 1) in
  let delta := (stop - start)%float in
  let step := (delta / div)%float in
  let scaled (i : float) : float :=
    if (1 <? n)%nat then
      if (step =? 0)%float then (i / div * delta)%float else (i * step)%float
    else (i * delta)%float in
  let y := map (fun i => (scaled (float_of_nat i) + start)%float) (seq 0 n) in
  if (1 <? n)%nat then <[(n - 1)%nat := stop]> y else y.

(** *** The platform *)

(** What the notebook takes from the platform: [repr] of a float (the
    shortest numeral that reads back as the same number) and the cosine and
    sine of numpy. *)
Record Platform : Type :=
  { repr_float : float -> string;
    cos : float -> float;
    sin : float -> float }.

Definition repr (P : Platform) (n : num) : string :=
  match n with
  | Int z => repr_int z
  | Float f => repr_float P f
  end.

(** *** Parameters *)

Record NetParams : Type := { additional_params : gmap string num }.

Definition ADDITIONAL_NET_PARAMS : gmap string num :=
  {[ "radius" := Int 40; "num_lanes" := Int 1; "speed_limit" := Int 30 ]}.

(** [NetParams(additional_params=ADDITIONAL_NET_PARAMS.copy())] *)
Definition net_params : NetParams :=
  {| additional_params := ADDITIONAL_NET_PARAMS |}.

(** The default parameters with another radius. *)
Definition with_radius (r : num) : NetParams :=
  {| additional_params := <["radius" := r]> ADDITIONAL_NET_PARAMS |}.

(** Parameters without a radius. *)
Definition no_radius : NetParams :=
  {| additional_params := {[ "num_lanes" := Int 1; "speed_limit" := Int 30 ]} |}.

(** Parameters with a radius only. *)
Definition radius_only (r : num) : NetParams :=
  {| additional_params := {[ "radius" := r ]} |}.

(** *** [myGenerator.specify_nodes] *)

Record Node : Type :=
  { node_id : string; node_x : num; node_y : num }.

(** The list [nodes] of the method, each coordinate before [repr]. *)
Definition ring_nodes (r : num) : list Node :=
  [ {| node_id := "bottom"; node_x := Int 0;  node_y := neg r |};
    {| node_id := "right";  node_x := r;      node_y := Int 0 |};
    {| node_id := "top";    node_x := Int 0;  node_y := r |};
    {| node_id := "left";   node_x := neg r;  node_y := Int 0 |} ].

Definition node_dict (P : Platform) (n : Node) : gmap string value :=
  {[ "id" := Str (node_id n);
     "x" := Str (repr P (node_x n));
     "y" := Str (repr P (node_y n)) ]}.

Definition specify_nodes (P : Platform) (net_params : NetParams)
  : result (list (gmap string value)) :=
  r ← getitem (additional_params net_params) "radius";
  mret (node_dict P <$> ring_nodes r).

(** *** [myGenerator.specify_edges] *)

Record Edge : Type :=
  { edge_id : string;
    edge_lanes : num;
    edge_speed : num;
    edge_from : string;
    edge_to : string;
    edge_length : num;
    edge_shape : list (float * float) }.

(** [[(r * cos(t), r * sin(t)) for t in linspace(start, stop, 40)]]:
    [linspace] turns its two arguments into floats. *)
Definition arc (P : Platform) (r : num) (start stop : result num)
  : result (list (float * float)) :=
  a ← start;
  b ← stop;
  a ← to_float a;
  b ← to_float b;
  mapM (fun t => x ← mul_float64 r (cos P t);
                 y ← mul_float64 r (sin P t);
                 mret (x, y))
       (linspace a b 40).

(** ["%.2f,%.2f" % (x, y)] *)
Definition pair_string (p : float * float) : string :=
  format_2f p.1 +:+ "," +:+ format_2f p.2.

(** [" ".join(["%.2f,%.2f" % (x, y) for (x, y) in pts])] *)
Definition shape_string (pts : list (float * float)) : string :=
  join " " (pair_string <$> pts).

(** The dict literal of one edge. *)
Definition edge_dict (P : Platform) (e : Edge) : gmap string value :=
  {[ "id" := Str (edge_id e);
     "numLanes" := Str (repr P (edge_lanes e));
     "speed" := Str (repr P (edge_speed e));
     "from" := Str (edge_from e);
     "to" := Str (edge_to e);
     "length" := Str (repr P (edge_length e));
     "shape" := Str (shape_string (edge_shape e)) ]}.

(** The list [edges] of the method, given its four shapes. *)
Definition ring_edges (lanes speed_limit edgelen : num)
    (shape0 shape1 shape2 shape3 : list (float * float)) : list Edge :=
  [ {| edge_id := "edge0"; edge_lanes := lanes; edge_speed := speed_limit;
       edge_from := "bottom"; edge_to := "right"; edge_length := edgelen;
       edge_shape := shape0 |};
    {| edge_id := "edge1"; edge_lanes := lanes; edge_speed := speed_limit;
       edge_from := "right"; edge_to := "top"; edge_length := edgelen;
       edge_shape := shape1 |};
    {| edge_id := "edge2"; edge_lanes := lanes; edge_speed := speed_limit;
       edge_from := "top"; edge_to := "left"; edge_length := edgelen;
       edge_shape := shape2 |};
    {| edge_id := "edge3"; edge_lanes := lanes; edge_speed := speed_limit;
       edge_from := "left"; edge_to := "bottom"; edge_length := edgelen;
       edge_shape := shape3 |} ].

(** [edgelen = r * pi / 2] is computed after the radius is read and before
    the other two keys are. *)
Definition specify_edges (P : Platform) (net_params : NetParams)
  : result (list (gmap string value)) :=
  getitem (additional_params net_params) "radius" ≫= fun r : num =>
  edgelen ← (r * pi / Int 2)%b64;
  lanes ← getitem (additional_params net_params) "num_lanes";
  speed_limit ← getitem (additional_params net_params) "speed_limit";
  shape0 ← arc P r (- pi / Int 2)%b64 (Int 0);
  shape1 ← arc P r (Int 0) (pi / Int 2)%b64;
  shape2 ← arc P r (pi / Int 2)%b64 pi;
  shape3 ← arc P r pi (Int 3 * pi / Int 2)%b64;
  mret (edge_dict P
          <$> ring_edges lanes speed_limit edgelen shape0 shape1 shape2 shape3).

(** *** [myGenerator.specify_routes] *)

Definition specify_routes (net_params : NetParams) : gmap string (list string) :=
  {[ "edge0" := ["edge0"; "edge1"; "edge2"; "edge3"];
     "edge1" := ["edge1"; "edge2"; "edge3"; "edge0"];
     "edge2" := ["edge2"; "edge3"; "edge0"; "edge1"];
     "edge3" := ["edge3"; "edge0"; "edge1"; "edge2"] ]}.

(** The edge starts as a function of the radius. *)
Definition ring_edge_starts (r : num) : result (list (string * num)) :=
  start1 ← (r * Int 1 / Int 2 * pi)%b64;
  start2 ← (r * pi)%b64;
  start3 ← (r * Int 3 / Int 2 * pi)%b64;
  mret [ ("edge0", Int 0); ("edge1", start1); ("edge2", start2);
         ("edge3", start3) ].

(** *** [myScenario.specify_edge_starts]

    The method reads [self.net_params]; here [net_params] is passed
    explicitly.  [r * 1/2 * pi] is [((r * 1) / 2) * pi]. *)
Definition specify_edge_starts (net_params : NetParams)
  : result (list (string * num)) :=
  getitem (additional_params net_params) "radius" ≫= ring_edge_starts.

(** ** What the statements on binary64 numbers are made of *)

(** All three parameters of the ring are present in [additional_params]. *)
Definition configured (np : NetParams) (r lanes speed_limit : num) : Prop :=
  additional_params np !! "radius" = Some r
  /\ additional_params np !! "num_lanes" = Some lanes
  /\ additional_params np !! "speed_limit" = Some speed_limit.

(** One sample of a shape, for a radius whose float is [rf]. *)
Definition sample (P : Platform) (rf t : float) : float * float :=
  ((rf * cos P t)%float, (rf * sin P t)%float).

(** The angles of the quarter turns, as [linspace] receives them. *)
Definition turn_m1 : float := (- 0x1.921fb54442d18p+1 / 2)%float.
Definition turn_0 : float := 0%float.
Definition turn_1 : float := (0x1.921fb54442d18p+1 / 2)%float.
Definition turn_2 : float := 0x1.921fb54442d18p+1%float.
Definition turn_3 : float := (3 * 0x1.921fb54442d18p+1 / 2)%float.

(** The list [edges] for a radius whose float is [rf]. *)
Definition edges_of (P : Platform) (rf : float) (lanes speed_limit : num)
  : list Edge :=
  ring_edges lanes speed_limit (Float (rf * 0x1.921fb54442d18p+1 / 2))
    (sample P rf <$> linspace turn_m1 turn_0 40)
    (sample P rf <$> linspace turn_0 turn_1 40)
    (sample P rf <$> linspace turn_1 turn_2 40)
    (sample P rf <$> linspace turn_2 turn_3 40).








(** The point that ["%.2f,%.2f" % (x, y)] spells, when both are finite. *)
Definition spelled (p : float * float) : option (dec2 * dec2) :=
  x ← dec2_of_float p.1; y ← dec2_of_float p.2; Some (x, y).

(** The real number a float stands for; [0] for an infinity and for NaN. *)
Definition float_value (f : float) : R :=
  match Prim2SF f with
  | S754_finite s m e =>
      ((if s then -1 else 1) * IZR (Z.pos m)
       * (if (0 <=? e)%Z then IZR (2 ^ e) else / IZR (2 ^ (- e))))%R
  | _ => 0%R
  end.

(** *** The quarter turns *)




(** *** Tests evaluated radius by radius *)


(** The edge starts of the integer radius [z] increase exactly when [z] is
    positive, decrease exactly when it is negative, and are all zero when
    it is zero. *)
Definition signs_check (z : Z) : bool :=
  match ring_edge_starts (Int z) with
  | Ok [ (_, Int 0); (_, Float o1); (_, Float o2); (_, Float o3) ] =>
      Bool.eqb ((0 <? o1)%float && (o1 <? o2)%float && (o2 <? o3)%float)
        (0 <? z)%Z
      && Bool.eqb ((o1 <? 0)%float && (o2 <? o1)%float && (o3 <? o2)%float)
           (z <? 0)%Z
      && Bool.eqb ((o1 =? 0)%float && (o2 =? 0)%float && (o3 =? 0)%float)
           (z =? 0)%Z
  | _ => false
  end.



(** *** A platform to run the notebook on

    The binary64 numbers nearest to the true cosine and sine at the 157
    angles the four shapes are sampled at; libraries return these numbers
    or a neighbour.  Nothing else is asked of [cos] and [sin] by the
    notebook, whatever the radius. *)
Definition libm_table : list (float * (float * float)) :=
  [
    ((-0x1.921fb54442d18p+0), (0x1.1a62633145c07p-54, (-0x1.0000000000000p+0)));
    ((-0x1.87d0203561ecfp+0), (0x1.49dbcbfd344a6p-5, (-0x1.ff95b34b56fc8p-1)));
    ((-0x1.7d808b2681086p+0), (0x1.49975010f46dbp-4, (-0x1.fe56f950f889dp-1)));
    ((-0x1.7330f617a023ep+0), (0x1.edb7debaa3ed5p-4, (-0x1.fc44566966769p-1)));
    ((-0x1.68e16108bf3f5p+0), (0x1.4885b5a98c648p-3, (-0x1.f95ea6eb137adp-1)));
    ((-0x1.5e91cbf9de5acp+0), (0x1.99a7122905c76p-3, (-0x1.f5a71ecee5678p-1)));
    ((-0x1.544236eafd763p+0), (0x1.ea1e54bc48dc1p-3, (-0x1.f11f493053d00p-1)));
    ((-0x1.49f2a1dc1c91ap+0), (0x1.1ce509f2c9f54p-2, (-0x1.ebc907a958479p-1)));
    ((-0x1.3fa30ccd3bad2p+0), (0x1.44449d5444de7p-2, (-0x1.e5a6918a7452ap-1)));
    ((-0x1.355377be5ac89p+0), (0x1.6b1d8b2365da0p-2, (-0x1.deba72ef20147p-1)));
    ((-0x1.2b03e2af79e40p+0), (0x1.915fb1e9e45dbp-2, (-0x1.d7078baf038bap-1)));
    ((-0x1.20b44da098ff7p+0), (0x1.b6fb2ecd0ef0ap-2, (-0x1.ce910e2c6acacp-1)));
    ((-0x1.1664b891b81aep+0), (0x1.dbe064267c47dp-2, (-0x1.c55a7e00740e9p-1)));
    ((-0x1.0c152382d7366p+0), (0x1.ffffffffffffep-2, (-0x1.bb67ae8584cabp-1)));
    ((-0x1.01c58e73f651cp+0), (0x1.11a5813818d8cp-1, (-0x1.b0bcc140a0c9fp-1)));
    ((-0x1.eeebf2ca2ada8p-1), (0x1.22d961ea71119p-1, (-0x1.a55e242a4c3d3p-1)));
    ((-0x1.da4cc8ac69116p-1), (0x1.33947d747447cp-1, (-0x1.99508fd7af0dfp-1)));
    ((-0x1.c5ad9e8ea7484p-1), (0x1.43cfe159608ddp-1, (-0x1.8c990584bcfb5p-1)));
    ((-0x1.b10e7470e57f3p-1), (0x1.5384d024c2f84p-1, (-0x1.7f3ccd0032e0cp-1)));
    ((-0x1.9c6f4a5323b61p-1), (0x1.62acc436eed57p-1, (-0x1.7141727a4610ap-1)));
    ((-0x1.87d0203561ed0p-1), (0x1.7141727a46109p-1, (-0x1.62acc436eed58p-1)));
    ((-0x1.7330f617a023ep-1), (0x1.7f3ccd0032e0cp-1, (-0x1.5384d024c2f84p-1)));
    ((-0x1.5e91cbf9de5acp-1), (0x1.8c990584bcfb5p-1, (-0x1.43cfe159608ddp-1)));
    ((-0x1.49f2a1dc1c91bp-1), (0x1.99508fd7af0dep-1, (-0x1.33947d747447cp-1)));
    ((-0x1.355377be5ac89p-1), (0x1.a55e242a4c3d2p-1, (-0x1.22d961ea71119p-1)));
    ((-0x1.20b44da098ff8p-1), (0x1.b0bcc140a0c9fp-1, (-0x1.11a5813818d8bp-1)));
    ((-0x1.0c152382d7366p-1), (0x1.bb67ae8584caap-1, (-0x1.0000000000000p-1)));
    ((-0x1.eeebf2ca2ada8p-2), (0x1.c55a7e00740e9p-1, (-0x1.dbe064267c47cp-2)));
    ((-0x1.c5ad9e8ea7484p-2), (0x1.ce910e2c6acadp-1, (-0x1.b6fb2ecd0ef09p-2)));
    ((-0x1.9c6f4a5323b60p-2), (0x1.d7078baf038bap-1, (-0x1.915fb1e9e45dap-2)));
    ((-0x1.7330f617a0240p-2), (0x1.deba72ef20147p-1, (-0x1.6b1d8b2365da3p-2)));
    ((-0x1.49f2a1dc1c91cp-2), (0x1.e5a6918a74529p-1, (-0x1.44449d5444deap-2)));
    ((-0x1.20b44da098ff8p-2), (0x1.ebc907a958479p-1, (-0x1.1ce509f2c9f53p-2)));
    ((-0x1.eeebf2ca2ada8p-3), (0x1.f11f493053d00p-1, (-0x1.ea1e54bc48dbfp-3)));
    ((-0x1.9c6f4a5323b60p-3), (0x1.f5a71ecee5678p-1, (-0x1.99a7122905c74p-3)));
    ((-0x1.49f2a1dc1c920p-3), (0x1.f95ea6eb137adp-1, (-0x1.4885b5a98c64dp-3)));
    ((-0x1.eeebf2ca2adb0p-4), (0x1.fc44566966769p-1, (-0x1.edb7debaa3ee1p-4)));
    ((-0x1.49f2a1dc1c920p-4), (0x1.fe56f950f889dp-1, (-0x1.49975010f46d7p-4)));
    ((-0x1.49f2a1dc1c920p-5), (0x1.ff95b34b56fc8p-1, (-0x1.49dbcbfd3449dp-5)));
    (0, (0x1.0000000000000p+0, 0));
    (0x1.49f2a1dc1c91ap-5, (0x1.ff95b34b56fc8p-1, 0x1.49dbcbfd34497p-5));
    (0x1.49f2a1dc1c91ap-4, (0x1.fe56f950f889ep-1, 0x1.49975010f46d1p-4));
    (0x1.eeebf2ca2ada7p-4, (0x1.fc44566966769p-1, 0x1.edb7debaa3ed8p-4));
    (0x1.49f2a1dc1c91ap-3, (0x1.f95ea6eb137adp-1, 0x1.4885b5a98c647p-3));
    (0x1.9c6f4a5323b60p-3, (0x1.f5a71ecee5678p-1, 0x1.99a7122905c74p-3));
    (0x1.eeebf2ca2ada7p-3, (0x1.f11f493053d00p-1, 0x1.ea1e54bc48dbep-3));
    (0x1.20b44da098ff7p-2, (0x1.ebc907a95847ap-1, 0x1.1ce509f2c9f52p-2));
    (0x1.49f2a1dc1c91ap-2, (0x1.e5a6918a74529p-1, 0x1.44449d5444de8p-2));
    (0x1.7330f617a023dp-2, (0x1.deba72ef20147p-1, 0x1.6b1d8b2365da0p-2));
    (0x1.9c6f4a5323b60p-2, (0x1.d7078baf038bap-1, 0x1.915fb1e9e45dap-2));
    (0x1.c5ad9e8ea7484p-2, (0x1.ce910e2c6acadp-1, 0x1.b6fb2ecd0ef09p-2));
    (0x1.eeebf2ca2ada7p-2, (0x1.c55a7e00740e9p-1, 0x1.dbe064267c47bp-2));
    (0x1.0c152382d7365p-1, (0x1.bb67ae8584cabp-1, 0x1.fffffffffffffp-2));
    (0x1.20b44da098ff7p-1, (0x1.b0bcc140a0c9fp-1, 0x1.11a5813818d8ap-1));
    (0x1.355377be5ac88p-1, (0x1.a55e242a4c3d3p-1, 0x1.22d961ea71118p-1));
    (0x1.49f2a1dc1c91ap-1, (0x1.99508fd7af0dfp-1, 0x1.33947d747447bp-1));
    (0x1.5e91cbf9de5acp-1, (0x1.8c990584bcfb5p-1, 0x1.43cfe159608ddp-1));
    (0x1.7330f617a023dp-1, (0x1.7f3ccd0032e0dp-1, 0x1.5384d024c2f83p-1));
    (0x1.87d0203561ecfp-1, (0x1.7141727a4610ap-1, 0x1.62acc436eed57p-1));
    (0x1.9c6f4a5323b60p-1, (0x1.62acc436eed58p-1, 0x1.7141727a46109p-1));
    (0x1.b10e7470e57f2p-1, (0x1.5384d024c2f85p-1, 0x1.7f3ccd0032e0cp-1));
    (0x1.c5ad9e8ea7484p-1, (0x1.43cfe159608ddp-1, 0x1.8c990584bcfb5p-1));
    (0x1.da4cc8ac69115p-1, (0x1.33947d747447dp-1, 0x1.99508fd7af0dep-1));
    (0x1.eeebf2ca2ada7p-1, (0x1.22d961ea7111ap-1, 0x1.a55e242a4c3d2p-1));
    (0x1.01c58e73f651cp+0, (0x1.11a5813818d8cp-1, 0x1.b0bcc140a0c9fp-1));
    (0x1.0c152382d7365p+0, (0x1.0000000000001p-1, 0x1.bb67ae8584caap-1));
    (0x1.1664b891b81aep+0, (0x1.dbe064267c47dp-2, 0x1.c55a7e00740e9p-1));
    (0x1.20b44da098ff7p+0, (0x1.b6fb2ecd0ef0ap-2, 0x1.ce910e2c6acacp-1));
    (0x1.2b03e2af79e40p+0, (0x1.915fb1e9e45dbp-2, 0x1.d7078baf038bap-1));
    (0x1.355377be5ac88p+0, (0x1.6b1d8b2365da4p-2, 0x1.deba72ef20146p-1));
    (0x1.3fa30ccd3bad1p+0, (0x1.44449d5444debp-2, 0x1.e5a6918a74529p-1));
    (0x1.49f2a1dc1c91ap+0, (0x1.1ce509f2c9f54p-2, 0x1.ebc907a958479p-1));
    (0x1.544236eafd763p+0, (0x1.ea1e54bc48dc1p-3, 0x1.f11f493053d00p-1));
    (0x1.5e91cbf9de5acp+0, (0x1.99a7122905c76p-3, 0x1.f5a71ecee5678p-1));
    (0x1.68e16108bf3f4p+0, (0x1.4885b5a98c650p-3, 0x1.f95ea6eb137adp-1));
    (0x1.7330f617a023dp+0, (0x1.edb7debaa3ee5p-4, 0x1.fc44566966769p-1));
    (0x1.7d808b2681086p+0, (0x1.49975010f46dbp-4, 0x1.fe56f950f889dp-1));
    (0x1.87d0203561ecfp+0, (0x1.49dbcbfd344a6p-5, 0x1.ff95b34b56fc8p-1));
    (0x1.921fb54442d18p+0, (0x1.1a62633145c07p-54, 0x1.0000000000000p+0));
    (0x1.9c6f4a5323b61p+0, ((-0x1.49dbcbfd34495p-5), 0x1.ff95b34b56fc8p-1));
    (0x1.a6bedf62049aap+0, ((-0x1.49975010f46d2p-4), 0x1.fe56f950f889dp-1));
    (0x1.b10e7470e57f2p+0, ((-0x1.edb7debaa3eccp-4), 0x1.fc44566966769p-1));
    (0x1.bb5e097fc663bp+0, ((-0x1.4885b5a98c643p-3), 0x1.f95ea6eb137adp-1));
    (0x1.c5ad9e8ea7484p+0, ((-0x1.99a7122905c72p-3), 0x1.f5a71ecee5678p-1));
    (0x1.cffd339d882cdp+0, ((-0x1.ea1e54bc48dbdp-3), 0x1.f11f493053d00p-1));
    (0x1.da4cc8ac69116p+0, ((-0x1.1ce509f2c9f52p-2), 0x1.ebc907a95847ap-1));
    (0x1.e49c5dbb49f5ep+0, ((-0x1.44449d5444de5p-2), 0x1.e5a6918a7452ap-1));
    (0x1.eeebf2ca2ada7p+0, ((-0x1.6b1d8b2365d9ep-2), 0x1.deba72ef20147p-1));
    (0x1.f93b87d90bbf0p+0, ((-0x1.915fb1e9e45d9p-2), 0x1.d7078baf038bap-1));
    (0x1.01c58e73f651cp+1, ((-0x1.b6fb2ecd0ef04p-2), 0x1.ce910e2c6acaep-1));
    (0x1.06ed58fb66c41p+1, ((-0x1.dbe064267c47bp-2), 0x1.c55a7e00740e9p-1));
    (0x1.0c152382d7365p+1, ((-0x1.ffffffffffffcp-2), 0x1.bb67ae8584cabp-1));
    (0x1.113cee0a47a8ap+1, ((-0x1.11a5813818d8bp-1), 0x1.b0bcc140a0c9fp-1));
    (0x1.1664b891b81aep+1, ((-0x1.22d961ea71118p-1), 0x1.a55e242a4c3d3p-1));
    (0x1.1b8c8319288d2p+1, ((-0x1.33947d7474479p-1), 0x1.99508fd7af0e1p-1));
    (0x1.20b44da098ff7p+1, ((-0x1.43cfe159608dcp-1), 0x1.8c990584bcfb5p-1));
    (0x1.25dc18280971bp+1, ((-0x1.5384d024c2f82p-1), 0x1.7f3ccd0032e0ep-1));
    (0x1.2b03e2af79e40p+1, ((-0x1.62acc436eed57p-1), 0x1.7141727a4610ap-1));
    (0x1.302bad36ea564p+1, ((-0x1.7141727a46109p-1), 0x1.62acc436eed58p-1));
    (0x1.355377be5ac88p+1, ((-0x1.7f3ccd0032e0ap-1), 0x1.5384d024c2f87p-1));
    (0x1.3a7b4245cb3adp+1, ((-0x1.8c990584bcfb4p-1), 0x1.43cfe159608ddp-1));
    (0x1.3fa30ccd3bad1p+1, ((-0x1.99508fd7af0ddp-1), 0x1.33947d747447ep-1));
    (0x1.44cad754ac1f6p+1, ((-0x1.a55e242a4c3d2p-1), 0x1.22d961ea71119p-1));
    (0x1.49f2a1dc1c91ap+1, ((-0x1.b0bcc140a0c9ep-1), 0x1.11a5813818d8cp-1));
    (0x1.4f1a6c638d03ep+1, ((-0x1.bb67ae8584ca9p-1), 0x1.0000000000003p-1));
    (0x1.544236eafd763p+1, ((-0x1.c55a7e00740e8p-1), 0x1.dbe064267c47ep-2));
    (0x1.596a01726de88p+1, ((-0x1.ce910e2c6acadp-1), 0x1.b6fb2ecd0ef07p-2));
    (0x1.5e91cbf9de5acp+1, ((-0x1.d7078baf038bap-1), 0x1.915fb1e9e45dcp-2));
    (0x1.63b996814ecd0p+1, ((-0x1.deba72ef20146p-1), 0x1.6b1d8b2365da5p-2));
    (0x1.68e16108bf3f4p+1, ((-0x1.e5a6918a74528p-1), 0x1.44449d5444df0p-2));
    (0x1.6e092b902fb19p+1, ((-0x1.ebc907a958479p-1), 0x1.1ce509f2c9f55p-2));
    (0x1.7330f617a023ep+1, ((-0x1.f11f493053d00p-1), 0x1.ea1e54bc48dbcp-3));
    (0x1.7858c09f10962p+1, ((-0x1.f5a71ecee5678p-1), 0x1.99a7122905c78p-3));
    (0x1.7d808b2681086p+1, ((-0x1.f95ea6eb137adp-1), 0x1.4885b5a98c652p-3));
    (0x1.82a855adf17aap+1, ((-0x1.fc44566966769p-1), 0x1.edb7debaa3ef9p-4));
    (0x1.87d0203561ecfp+1, ((-0x1.fe56f950f889dp-1), 0x1.49975010f46e0p-4));
    (0x1.8cf7eabcd25f4p+1, ((-0x1.ff95b34b56fc8p-1), 0x1.49dbcbfd3448fp-5));
    (0x1.921fb54442d18p+1, ((-0x1.0000000000000p+0), 0x1.1a62633145c07p-53));
    (0x1.97477fcbb343cp+1, ((-0x1.ff95b34b56fc9p-1), (-0x1.49dbcbfd3446cp-5)));
    (0x1.9c6f4a5323b61p+1, ((-0x1.fe56f950f889ep-1), (-0x1.49975010f46cep-4)));
    (0x1.a19714da94285p+1, ((-0x1.fc44566966769p-1), (-0x1.edb7debaa3ec8p-4)));
    (0x1.a6bedf62049aap+1, ((-0x1.f95ea6eb137adp-1), (-0x1.4885b5a98c649p-3)));
    (0x1.abe6a9e9750cep+1, ((-0x1.f5a71ecee5679p-1), (-0x1.99a7122905c70p-3)));
    (0x1.b10e7470e57f2p+1, ((-0x1.f11f493053d01p-1), (-0x1.ea1e54bc48db3p-3)));
    (0x1.b6363ef855f17p+1, ((-0x1.ebc907a95847ap-1), (-0x1.1ce509f2c9f51p-2)));
    (0x1.bb5e097fc663bp+1, ((-0x1.e5a6918a7452ap-1), (-0x1.44449d5444de4p-2)));
    (0x1.c085d40736d60p+1, ((-0x1.deba72ef20147p-1), (-0x1.6b1d8b2365da1p-2)));
    (0x1.c5ad9e8ea7484p+1, ((-0x1.d7078baf038bap-1), (-0x1.915fb1e9e45d8p-2)));
    (0x1.cad5691617ba8p+1, ((-0x1.ce910e2c6acaep-1), (-0x1.b6fb2ecd0ef03p-2)));
    (0x1.cffd339d882cdp+1, ((-0x1.c55a7e00740e9p-1), (-0x1.dbe064267c47ap-2)));
    (0x1.d524fe24f89f1p+1, ((-0x1.bb67ae8584cacp-1), (-0x1.ffffffffffffbp-2)));
    (0x1.da4cc8ac69116p+1, ((-0x1.b0bcc140a0ca0p-1), (-0x1.11a5813818d8ap-1)));
    (0x1.df749333d983ap+1, ((-0x1.a55e242a4c3d3p-1), (-0x1.22d961ea71117p-1)));
    (0x1.e49c5dbb49f5ep+1, ((-0x1.99508fd7af0e1p-1), (-0x1.33947d7474479p-1)));
    (0x1.e9c42842ba683p+1, ((-0x1.8c990584bcfb6p-1), (-0x1.43cfe159608dcp-1)));
    (0x1.eeebf2ca2ada7p+1, ((-0x1.7f3ccd0032e0ep-1), (-0x1.5384d024c2f82p-1)));
    (0x1.f413bd519b4ccp+1, ((-0x1.7141727a4610ap-1), (-0x1.62acc436eed57p-1)));
    (0x1.f93b87d90bbf0p+1, ((-0x1.62acc436eed59p-1), (-0x1.7141727a46108p-1)));
    (0x1.fe6352607c314p+1, ((-0x1.5384d024c2f87p-1), (-0x1.7f3ccd0032e0ap-1)));
    (0x1.01c58e73f651cp+2, ((-0x1.43cfe159608e1p-1), (-0x1.8c990584bcfb1p-1)));
    (0x1.045973b7ae8afp+2, ((-0x1.33947d747447bp-1), (-0x1.99508fd7af0dfp-1)));
    (0x1.06ed58fb66c41p+2, ((-0x1.22d961ea7111ap-1), (-0x1.a55e242a4c3d2p-1)));
    (0x1.09813e3f1efd3p+2, ((-0x1.11a5813818d8dp-1), (-0x1.b0bcc140a0c9ep-1)));
    (0x1.0c152382d7365p+2, ((-0x1.0000000000004p-1), (-0x1.bb67ae8584ca8p-1)));
    (0x1.0ea908c68f6f8p+2, ((-0x1.dbe064267c478p-2), (-0x1.c55a7e00740eap-1)));
    (0x1.113cee0a47a8ap+2, ((-0x1.b6fb2ecd0ef08p-2), (-0x1.ce910e2c6acadp-1)));
    (0x1.13d0d34dffe1cp+2, ((-0x1.915fb1e9e45ddp-2), (-0x1.d7078baf038b9p-1)));
    (0x1.1664b891b81aep+2, ((-0x1.6b1d8b2365da6p-2), (-0x1.deba72ef20146p-1)));
    (0x1.18f89dd570540p+2, ((-0x1.44449d5444df1p-2), (-0x1.e5a6918a74528p-1)));
    (0x1.1b8c8319288d2p+2, ((-0x1.1ce509f2c9f5ep-2), (-0x1.ebc907a958478p-1)));
    (0x1.1e20685ce0c65p+2, ((-0x1.ea1e54bc48dbep-3), (-0x1.f11f493053d00p-1)));
    (0x1.20b44da098ff7p+2, ((-0x1.99a7122905c7ap-3), (-0x1.f5a71ecee5678p-1)));
    (0x1.234832e451389p+2, ((-0x1.4885b5a98c654p-3), (-0x1.f95ea6eb137adp-1)));
    (0x1.25dc18280971bp+2, ((-0x1.edb7debaa3efep-4), (-0x1.fc44566966769p-1)));
    (0x1.286ffd6bc1aaep+2, ((-0x1.49975010f46c4p-4), (-0x1.fe56f950f889ep-1)));
    (0x1.2b03e2af79e40p+2, ((-0x1.49dbcbfd34498p-5), (-0x1.ff95b34b56fc8p-1)));
    (0x1.2d97c7f3321d2p+2, ((-0x1.a79394c9e8a0ap-53), (-0x1.0000000000000p+0)))
  ]%float.

Definition tabulated (t : float) : option (float * float) :=
  snd <$> List.find (fun q : float * (float * float) => Leibniz.eqb q.1 t)
            libm_table.

(** The platform of the table; its [repr] of a float is a stand-in that
    prints two decimal places. *)
Definition table_platform : Platform :=
  {| repr_float := format_2f;
     cos := fun t => default nan (fst <$> tabulated t);
     sin := fun t => default nan (snd <$> tabulated t) |}.

End Binary64.

(** ** The generator and the scenario, floats read as real numbers

    The four methods with exact arithmetic, for the statements on ids,
    routes and positions.  What this reading leaves out (rounding, infinite
    and NaN values, [OverflowError] in [r * pi / 2]) is in [Binary64]. *)

Section Ring.

#[local] Set Default Proof Using "Type".

(** [repr] of a float prints the shortest decimal numeral that reads back
    as the same binary64 value.  That has no counterpart on the reals, so
    the function is a parameter of the development. *)
Variable repr_float : R -> string.

Definition repr (n : num) : string :=
  match n with
  | Int z => repr_int z
  | Float x => repr_float x
  end.

(** *** [myGenerator.specify_nodes] *)

(** The list [nodes] of the method, each coordinate before [repr]. *)
Definition ring_nodes (r : num) : list Node :=
  [ {| node_id := "bottom"; node_x := Int 0;     node_y := (- r)%py |};
    {| node_id := "right";  node_x := r;         node_y := Int 0 |};
    {| node_id := "top";    node_x := Int 0;     node_y := r |};
    {| node_id := "left";   node_x := (- r)%py;  node_y := Int 0 |} ].

(** [{"id": ..., "x": repr(...), "y": repr(...)}] *)
Definition node_dict (n : Node) : gmap string value :=
  {[ "id" := Str (node_id n);
     "x" := Str (repr (node_x n));
     "y" := Str (repr (node_y n)) ]}.

Definition specify_nodes (net_params : NetParams)
  : result (list (gmap string value)) :=
  r ← getitem (additional_params net_params) "radius";
  mret (node_dict <$> ring_nodes r).

(** *** [myGenerator.specify_edges] *)

(** [[(r * cos(t), r * sin(t)) for t in linspace(a, b, 40)]] *)
Definition arc (r a b : num) : list (R * R) :=
  (fun t => (to_real (r * Float (cos t)), to_real (r * Float (sin t))))
    <$> linspace (to_real a) (to_real b) 40.

(** [" ".join(["%.2f,%.2f" % (x, y) for (x, y) in pts])] *)
Definition shape_string (pts : list (R * R)) : string :=
  join " " ((fun p => format_2f p.1 +:+ "," +:+ format_2f p.2) <$> pts).

(** The list [edges] of the method, each attribute before [repr] and each
    shape before formatting. *)
Definition ring_edges (r lanes speed_limit : num) : list Edge :=
  let edgelen := (r * pi / Int 2)%py in
  [ {| edge_id := "edge0"; edge_lanes := lanes; edge_speed := speed_limit;
       edge_from := "bottom"; edge_to := "right"; edge_length := edgelen;
       edge_shape := arc r (- pi / Int 2)%py (Int 0) |};
    {| edge_id := "edge1"; edge_lanes := lanes; edge_speed := speed_limit;
       edge_from := "right"; edge_to := "top"; edge_length := edgelen;
       edge_shape := arc r (Int 0) (pi / Int 2)%py |};
    {| edge_id := "edge2"; edge_lanes := lanes; edge_speed := speed_limit;
       edge_from := "top"; edge_to := "left"; edge_length := edgelen;
       edge_shape := arc r (pi / Int 2)%py pi |};
    {| edge_id := "edge3"; edge_lanes := lanes; edge_speed := speed_limit;
       edge_from := "left"; edge_to := "bottom"; edge_length := edgelen;
       edge_shape := arc r pi (Int 3 * pi / Int 2)%py |} ].

(** The dict literal of one edge. *)
Definition edge_dict (e : Edge) : gmap string value :=
  {[ "id" := Str (edge_id e);
     "numLanes" := Str (repr (edge_lanes e));
     "speed" := Str (repr (edge_speed e));
     "from" := Str (edge_from e);
     "to" := Str (edge_to e);
     "length" := Str (repr (edge_length e));
     "shape" := Str (shape_string (edge_shape e)) ]}.

Definition specify_edges (net_params : NetParams)
  : result (list (gmap string value)) :=
  r ← getitem (additional_params net_params) "radius";
  lanes ← getitem (additional_params net_params) "num_lanes";
  speed_limit ← getitem (additional_params net_params) "speed_limit";
  mret (edge_dict <$> ring_edges r lanes speed_limit).

(** *** [myGenerator.specify_routes] *)

Definition specify_routes (net_params : NetParams) : gmap string (list string) :=
  {[ "edge0" := ["edge0"; "edge1"; "edge2"; "edge3"];
     "edge1" := ["edge1"; "edge2"; "edge3"; "edge0"];
     "edge2" := ["edge2"; "edge3"; "edge0"; "edge1"];
     "edge3" := ["edge3"; "edge0"; "edge1"; "edge2"] ]}.

(** *** [myScenario.specify_edge_starts]

    [self.net_params] is passed explicitly. *)

(** The list [edgestarts] of the method. *)
Definition ring_edge_starts (r : num) : list (string * num) :=
  [ ("edge0", Int 0);
    ("edge1", (r * Int 1 / Int 2 * pi)%py);
    ("edge2", (r * pi)%py);
    ("edge3", (r * Int 3 / Int 2 * pi)%py) ].

Definition specify_edge_starts (net_params : NetParams)
  : result (list (string * num)) :=
  r ← getitem (additional_params net_params) "radius";
  mret (ring_edge_starts r).

(** ** Route table (specification, section 4.3)

    The notebook returns the route table and stops there: the queries on
    it are described by the specification only. *)

(** Position of the first occurrence of [e] in [l]. *)
Fixpoint index_of (e : string) (l : list string) : option nat :=
  match l with
  | [] => None
  | x :: t => if decide (x = e) then Some 0%nat else S <$> index_of e t
  end.

(** Modelled from the spec: [next_edge] is not part of the notebook.  It
    returns the edge following [current] in a route, "wrapping to the first
    edge of the route when the end is reached (closed networks) or
    signaling [EndOfRoute] (open networks)".  An edge that is not on the
    route has no successor: the lookup fails. *)
Definition next_in_route (closed : bool) (route : list string)
    (current : string) : result string :=
  match index_of current route with
  | None => Err (KeyError current)
  | Some i =>
      match route !! S i with
      | Some e => Ok e
      | None =>
          if closed then
            match route with
            | first :: _ => Ok first
            | [] => Err (KeyError current)
            end
          else Err (Raise "EndOfRoute" current)
      end
  end.

(** Modelled from the spec: [next_edge(current_edge_id)] "returns the edge
    following [current_edge_id] in its associated route", the route the
    table maps [current_edge_id] to. *)
Definition next_edge (closed : bool) (routes : gmap string (list string))
    (current : string) : result string :=
  route ← getitem routes current;
  next_in_route closed route current.

(** [n] applications of a step that may raise. *)
Fixpoint iterate {A : Type} (n : nat) (f : A -> result A) (a : A) : result A :=
  match n with
  | O => Ok a
  | S k => a' ← f a; iterate k f a'
  end.


(** The pairs of consecutive edges of a route, the last pair leading from
    the last edge back to the first. *)
Definition consecutive (route : list string) : list (string * string) :=
  match route with
  | [] => []
  | first :: rest => zip route (rest ++ [first])
  end.

(** ** Position resolver (specification, section 4.4)

    The notebook declares the edge starts and stops there: the resolver
    built from them is described by the specification only. *)















(** The first of [keys] that the dict [d] lacks. *)
Fixpoint first_missing {V : Type} (keys : list string) (d : gmap string V)
  : option string :=
  match keys with
  | [] => None
  | k :: rest =>
      match d !! k with
      | None => Some k
      | Some _ => first_missing rest d
      end
  end.

(** The keys [specify_edges] reads, in the order it reads them. *)
Definition required_keys : list string := ["radius"; "num_lanes"; "speed_limit"].

(** All three parameters of the ring are present in [additional_params]. *)
Definition configured (np : NetParams) (r lanes speed_limit : num) : Prop :=
  additional_params np !! "radius" = Some r
  /\ additional_params np !! "num_lanes" = Some lanes
  /\ additional_params np !! "speed_limit" = Some speed_limit.

(** ** Reading the descriptors as a drawing *)

(** [int(s)] on a decimal numeral. *)
Definition read_int (s : string) : option Z :=
  Z.of_int <$> NilZero.int_of_string s.

(** Whether a call returned. *)
Definition is_ok {A : Type} (r : result A) : bool :=
  match r with
  | Ok _ => true
  | Err _ => false
  end.

(** Dot product of two points seen as vectors from the origin. *)
Definition dot (p q : R * R) : R := (p.1 * q.1 + p.2 * q.2)%R.

(** Square of the distance of a point from the origin. *)
Definition norm2 (p : R * R) : R := dot p p.

(** A descriptor without the two attributes that hold the lane count and
    the speed limit. *)
Definition without_lanes_and_speed (d : gmap string value) : gmap string value :=
  delete "numLanes" (delete "speed" d).

(** ** Properties *)

(** Membership in a list that is written out. *)
Ltac in_list :=
  repeat first [ apply list_elem_of_here | apply list_elem_of_further ].

(** *** The functions on small inputs *)

Example repr_int_examples :
  repr_int 0 = "0" /\ repr_int 40 = "40" /\ repr_int (-40) = "-40".
Proof. repeat split; reflexivity. Qed.

(** With the default parameters every coordinate is an [int], and [repr]
    of a float is not called. *)
Example specify_nodes_default :
  specify_nodes net_params
  = Ok [ {[ "id" := Str "bottom"; "x" := Str "0"; "y" := Str "-40" ]};
         {[ "id" := Str "right"; "x" := Str "40"; "y" := Str "0" ]};
         {[ "id" := Str "top"; "x" := Str "0"; "y" := Str "40" ]};
         {[ "id" := Str "left"; "x" := Str "-40"; "y" := Str "0" ]} ].
Proof. reflexivity. Qed.

Example specify_nodes_float_radius :
  specify_nodes {| additional_params := {[ "radius" := Float 2.5 ]} |}
  = Ok [ {[ "id" := Str "bottom"; "x" := Str "0";
            "y" := Str (repr_float (Ropp 2.5%R)) ]};
         {[ "id" := Str "right"; "x" := Str (repr_float 2.5%R); "y" := Str "0" ]};
         {[ "id" := Str "top"; "x" := Str "0"; "y" := Str (repr_float 2.5%R) ]};
         {[ "id" := Str "left"; "x" := Str (repr_float (Ropp 2.5%R));
            "y" := Str "0" ]} ].
Proof. reflexivity. Qed.

Example next_edge_examples :
  next_edge true (specify_routes net_params) "edge0" = Ok "edge1"
  /\ next_edge true (specify_routes net_params) "edge3" = Ok "edge0"
  /\ next_edge false (specify_routes net_params) "edge3" = Ok "edge0"
  /\ next_in_route true ["edge0"; "edge1"] "edge1" = Ok "edge0"
  /\ next_in_route false ["edge0"; "edge1"] "edge1"
     = Err (Raise "EndOfRoute" "edge1")
  /\ next_edge true (specify_routes net_params) "edge7"
     = Err (KeyError "edge7").
Proof. repeat split; reflexivity. Qed.

Example consecutive_example :
  consecutive ["a"; "b"; "c"] = [("a", "b"); ("b", "c"); ("c", "a")].
Proof. reflexivity. Qed.

Example first_missing_examples :
  first_missing required_keys ADDITIONAL_NET_PARAMS = None
  /\ first_missing required_keys (additional_params no_radius) = Some "radius"
  /\ first_missing required_keys (additional_params radius_only)
     = Some "num_lanes".
Proof. repeat split; reflexivity. Qed.

(** *** The generator on a complete configuration *)

Lemma getitem_Some {V : Type} (d : gmap string V) (key : string) (v : V) :
  d !! key = Some v -> getitem d key = Ok v.
Proof. intros H. unfold getitem. now rewrite H. Qed.

Lemma getitem_None {V : Type} (d : gmap string V) (key : string) :
  d !! key = None -> getitem d key = Err (KeyError key).
Proof. intros H. unfold getitem. now rewrite H. Qed.

Lemma specify_nodes_ok (np : NetParams) (r : num) :
  additional_params np !! "radius" = Some r ->
  specify_nodes np = Ok (node_dict <$> ring_nodes r).
Proof.
  intros H. unfold specify_nodes. now rewrite (getitem_Some _ _ _ H).
Qed.



(** The route table has exactly four entries. *)
Lemma specify_routes_inv (np : NetParams) (k : string) (route : list string) :
  specify_routes np !! k = Some route ->
  (k, route) ∈ [ ("edge0", ["edge0"; "edge1"; "edge2"; "edge3"]);
                 ("edge1", ["edge1"; "edge2"; "edge3"; "edge0"]);
                 ("edge2", ["edge2"; "edge3"; "edge0"; "edge1"]);
                 ("edge3", ["edge3"; "edge0"; "edge1"; "edge2"]) ].
Proof.
  unfold specify_routes. intros H.
  repeat (apply lookup_insert_Some in H as [[<- <-] | [_ H]];
          [ set_solver | ]).
  apply lookup_singleton_Some in H as [<- <-]. set_solver.
Qed.




(** *** Routes *)

(** C4: on the closed ring, for every starting edge, [next_edge] applied
    [len(route)] times returns the starting edge, whether the successor is
    read in the route of the edge currently occupied or throughout in the
    route of the starting edge. *)
Theorem next_edge_returns_to_start (np : NetParams) (start : string)
    (route : list string) :
  specify_routes np !! start = Some route ->
  iterate (List.length route) (next_edge true (specify_routes np)) start
    = Ok start
  /\ iterate (List.length route) (next_in_route true route) start = Ok start.
Proof.
  intros H. apply specify_routes_inv in H.
  repeat (apply elem_of_cons in H as [[= -> ->] | H];
          [ split; vm_compute; reflexivity | ]).
  now apply elem_of_nil in H.
Qed.



(** *** Real arithmetic *)




Lemma to_real_neg (a : num) : to_real (- a)%py = (- to_real a)%R.
Proof. destruct a; simpl; [ apply opp_IZR | reflexivity ]. Qed.










(** *** Two-decimal formatting *)

Example split_on_space : split_on " " "0.00,-40.00 1.61,-39.97"
  = ["0.00,-40.00"; "1.61,-39.97"].
Proof. reflexivity. Qed.

Example is_shape_accepts : is_shape "0.00,-40.00 1.61,-39.97 -0.00,40.00" = true.
Proof. reflexivity. Qed.

Example is_shape_rejects :
  is_shape "0.0,-40.00" = false /\ is_shape "0.000,1.00" = false
  /\ is_shape "0.00,1.00  2.00,3.00" = false /\ is_shape ".00,1.00" = false
  /\ is_shape "1.00" = false /\ is_shape "" = false.
Proof. repeat split; reflexivity. Qed.

Lemma round_half_even_near (x : R) (z : Z) :
  (IZR z - 1 / 2 < x < IZR z + 1 / 2)%R -> round_half_even x = z.
Proof.
  intros [Hlo Hhi]. unfold round_half_even.
  destruct (Rle_dec (IZR z) x) as [Hzx | Hzx].
  - rewrite <- (Int_part_spec x z) by lra.
    destruct (Rlt_dec (x - IZR z) (1 / 2)); [ reflexivity | lra ].
  - rewrite <- (Int_part_spec x (z - 1)) by (rewrite minus_IZR; lra).
    rewrite minus_IZR.
    destruct (Rlt_dec (x - (IZR z - 1)) (1 / 2)); [ lra | ].
    destruct (Rlt_dec (1 / 2) (x - (IZR z - 1))); [ lia | lra ].
Qed.

Lemma Rabs_le_bounds (a b : R) : (Rabs a <= b)%R -> (- b <= a <= b)%R.
Proof. unfold Rabs. destruct (Rcase_abs a); lra. Qed.

Lemma append_nil_l (s : string) : EmptyString +:+ s = s.
Proof. reflexivity. Qed.

Lemma append_cons (c : ascii) (s t : string) :
  String c s +:+ t = String c (s +:+ t).
Proof. reflexivity. Qed.

Lemma all_digits_uint (u : Decimal.uint) :
  all_digits (NilEmpty.string_of_uint u) = true.
Proof. induction u; simpl; auto. Qed.

Lemma uint_numeral (u : Decimal.uint) :
  exists c t, NilZero.string_of_uint u = String c t
              /\ is_digit c = true /\ all_digits t = true.
Proof.
  destruct u; simpl; eexists _, _;
    (split; [ reflexivity | split; [ reflexivity | ] ]);
    try reflexivity; apply all_digits_uint.
Qed.

Lemma is_digit_digit (n : Z) : is_digit (digit (n mod 10)) = true.
Proof.
  assert (H : (Z.to_nat (n mod 10) < 10)%nat)
    by (pose proof (Z.mod_pos_bound n 10); lia).
  unfold digit. revert H. generalize (Z.to_nat (n mod 10)). intros k Hk.
  do 10 (destruct k as [| k]; [ reflexivity | ]). lia.
Qed.

Lemma is_fixed2_digits (ds : string) (a b : ascii) (seen : bool) :
  all_digits ds = true -> is_digit a = true -> is_digit b = true ->
  seen = true \/ ds <> EmptyString ->
  is_fixed2 seen (ds +:+ String "." (String a (String b EmptyString))) = true.
Proof.
  intros Hds Ha Hb. revert seen. induction ds as [| c t IH]; intros seen Hseen.
  - destruct Hseen as [-> | Hne]; [ | congruence ].
    simpl. now rewrite Ha, Hb.
  - simpl in Hds. apply andb_prop in Hds as [Hc Ht].
    rewrite append_cons. simpl. rewrite Hc. apply IH; auto.
Qed.

Lemma digit_not_minus (c : ascii) : is_digit c = true -> Ascii.eqb c "-" = false.
Proof.
  intros H. destruct (Ascii.eqb_spec c "-") as [-> | Hne];
    [ discriminate H | reflexivity ].
Qed.

(** Whatever the numeral, what is shown has exactly two decimal places. *)
Lemma is_2f_show (d : dec2) : is_2f (show_dec2 d) = true.
Proof.
  unfold show_dec2.
  destruct (uint_numeral (N.to_uint (Z.to_N (hundredths d / 100))))
    as (c & t & -> & Hc & Ht).
  assert (Hfix : forall seen,
    is_fixed2 seen
      (String c t +:+ String "."
         (String (digit ((hundredths d / 10) mod 10))
            (String (digit (hundredths d mod 10)) EmptyString))) = true).
  { intros seen. apply is_fixed2_digits.
    - simpl. now rewrite Hc, Ht.
    - apply is_digit_digit.
    - apply is_digit_digit.
    - right. discriminate. }
  destruct (negative d).
  - exact (Hfix false).
  - specialize (Hfix false). revert Hfix.
    generalize (String "." (String (digit ((hundredths d / 10) mod 10))
                  (String (digit (hundredths d mod 10)) EmptyString))).
    intros tail Hfix. unfold is_2f.
    rewrite append_nil_l, append_cons in *.
    now rewrite (digit_not_minus c Hc).
Qed.

(** A two-decimal numeral holds digits, a point and a sign, nothing else. *)
Lemma is_fixed2_lacks (c : ascii) (s : string) (seen : bool) :
  is_digit c = false -> c <> "."%char ->
  is_fixed2 seen s = true -> lacks c s = true.
Proof.
  intros Hc Hpt. revert seen. induction s as [| a t IH]; intros seen H;
    [ reflexivity | ].
  simpl in H. simpl.
  destruct (Ascii.eqb_spec a c) as [-> | Hne].
  - rewrite Hc in H. destruct (Ascii.eqb_spec c "."); [ contradiction | ].
    discriminate H.
  - simpl. destruct (is_digit a); [ now apply (IH true) | ].
    destruct (Ascii.eqb_spec a "."); [ | discriminate H ].
    apply andb_prop in H as [_ H].
    destruct t as [| x [| y [| ? ?]]]; try discriminate H.
    apply andb_prop in H as [Hx Hy]. simpl.
    destruct (Ascii.eqb_spec x c) as [-> | _]; [ congruence | ].
    destruct (Ascii.eqb_spec y c) as [-> | _]; [ congruence | ].
    reflexivity.
Qed.

Lemma is_2f_lacks (c : ascii) (s : string) :
  is_digit c = false -> c <> "."%char -> c <> "-"%char ->
  is_2f s = true -> lacks c s = true.
Proof.
  intros Hc Hpt Hm H. destruct s as [| a t]; [ reflexivity | ].
  unfold is_2f in H. destruct (Ascii.eqb_spec a "-") as [-> | Hne].
  - cbn [lacks]. destruct (Ascii.eqb_spec "-"%char c); [ congruence | ].
    cbn [negb andb]. now apply (is_fixed2_lacks c t false).
  - now apply (is_fixed2_lacks c (String a t) false).
Qed.

Lemma lacks_append (c : ascii) (s t : string) :
  lacks c (s +:+ t) = lacks c s && lacks c t.
Proof.
  induction s as [| a s IH]; [ reflexivity | ].
  rewrite append_cons. simpl. rewrite IH. now rewrite andb_assoc.
Qed.

Lemma split_on_lacks (sep : ascii) (w : string) :
  lacks sep w = true -> split_on sep w = [w].
Proof.
  induction w as [| a w IH]; [ reflexivity | ].
  simpl. intros H. apply andb_prop in H as [Ha Hw].
  apply negb_true_iff in Ha. rewrite Ha, (IH Hw). reflexivity.
Qed.

Lemma split_on_append (sep : ascii) (w rest : string) :
  lacks sep w = true ->
  split_on sep (w +:+ String sep rest) = w :: split_on sep rest.
Proof.
  induction w as [| a w IH].
  - intros _. rewrite append_nil_l. simpl. now rewrite Ascii.eqb_refl.
  - intros H. cbn [lacks] in H. apply andb_prop in H as [Ha Hw].
    apply negb_true_iff in Ha. rewrite append_cons. cbn [split_on].
    rewrite Ha, (IH Hw). reflexivity.
Qed.

(** Splitting undoes joining when no piece holds the separator. *)
Lemma split_on_join (sep : ascii) (l : list string) :
  l <> [] -> Forall (fun w => lacks sep w = true) l ->
  split_on sep (join (String sep EmptyString) l) = l.
Proof.
  induction l as [| w l IH]; [ congruence | ].
  intros _ Hall. apply Forall_cons_1 in Hall as [Hw Hl].
  destruct l as [| w' l'].
  - simpl. now apply split_on_lacks.
  - change (join (String sep EmptyString) (w :: w' :: l'))
      with (w +:+ String sep EmptyString
              +:+ join (String sep EmptyString) (w' :: l')).
    rewrite append_cons, append_nil_l, (split_on_append _ _ _ Hw).
    rewrite IH by (auto; congruence). reflexivity.
Qed.

(** *** Reading a shape string back *)

Lemma read_digits (n : N) :
  NilZero.uint_of_string (NilZero.string_of_uint (N.to_uint n))
  = Some (N.to_uint n).
Proof.
  apply NilZero.usu. destruct n; [ discriminate | apply Unsigned.to_uint_nonnil ].
Qed.

Lemma digit_value_digit (n : Z) :
  (0 <= n < 10)%Z -> digit_value (digit n) = Some n.
Proof.
  intros Hn.
  assert (H : n = 0%Z \/ n = 1%Z \/ n = 2%Z \/ n = 3%Z \/ n = 4%Z \/ n = 5%Z
              \/ n = 6%Z \/ n = 7%Z \/ n = 8%Z \/ n = 9%Z) by lia.
  destruct H as [-> | [-> | [-> | [-> | [-> | [-> | [-> | [-> | [-> | ->]]]]]]]]];
    reflexivity.
Qed.

Lemma all_digits_lacks (c : ascii) (s : string) :
  is_digit c = false -> all_digits s = true -> lacks c s = true.
Proof.
  intros Hc. induction s as [| a s IH]; [ reflexivity | ].
  cbn [all_digits lacks]. intros H. apply andb_prop in H as [Ha Hs].
  rewrite (IH Hs). destruct (Ascii.eqb_spec a c) as [-> | _];
    [ congruence | reflexivity ].
Qed.

(** Reading undoes showing. *)
Lemma read_2f_show (d : dec2) :
  (0 <= hundredths d)%Z -> read_2f (show_dec2 d) = Some d.
Proof.
  destruct d as [neg n]. cbn [hundredths]. intros Hn.
  unfold show_dec2. cbn [negative hundredths].
  pose proof (read_digits (Z.to_N (n / 100))) as Hread.
  destruct (uint_numeral (N.to_uint (Z.to_N (n / 100))))
    as (c & t & Hip & Hc & Ht).
  assert (Hpoint : lacks "." (String c t) = true).
  { apply all_digits_lacks; [ reflexivity | ]. cbn [all_digits].
    now rewrite Hc, Ht. }
  rewrite Hip in Hread |- *.
  assert (Hda : is_digit (digit ((n / 10) mod 10)) = true)
    by apply is_digit_digit.
  assert (Hdb : is_digit (digit (n mod 10)) = true) by apply is_digit_digit.
  assert (Hfrac : lacks "." (String (digit ((n / 10) mod 10))
                               (String (digit (n mod 10)) EmptyString)) = true).
  { apply all_digits_lacks; [ reflexivity | ]. cbn [all_digits].
    now rewrite Hda, Hdb. }
  assert (Hbody :
    split_on "." (String c t +:+ String "."
                    (String (digit ((n / 10) mod 10))
                       (String (digit (n mod 10)) EmptyString)))
    = [String c t; String (digit ((n / 10) mod 10))
                     (String (digit (n mod 10)) EmptyString)]).
  { rewrite (split_on_append _ _ _ Hpoint). now rewrite (split_on_lacks _ _ Hfrac). }
  assert (Hval : (100 * Z.of_N (N.of_uint (N.to_uint (Z.to_N (n / 100))))
                  + 10 * ((n / 10) mod 10) + n mod 10 = n)%Z).
  { rewrite DecimalN.Unsigned.of_to, Z2N.id by (apply Z.div_pos; lia).
    pose proof (Z_div_mod_eq_full n 10).
    pose proof (Z_div_mod_eq_full (n / 10) 10).
    pose proof (Zdiv_Zdiv n 10 10 ltac:(lia) ltac:(lia)) as Hdd.
    change (10 * 10)%Z with 100%Z in Hdd. lia. }
  assert (Hrest : forall sign,
    (NilZero.uint_of_string (String c t)
       ≫= λ u, digit_value (digit ((n / 10) mod 10))
       ≫= λ da, digit_value (digit (n mod 10))
       ≫= λ db, Some (Dec2 sign (100 * Z.of_N (N.of_uint u) + 10 * da + db)))
    = Some (Dec2 sign n)).
  { intros sign. rewrite Hread. cbn [mbind option_bind].
    rewrite !digit_value_digit by (apply Z.mod_pos_bound; lia).
    cbn [mbind option_bind]. now rewrite Hval. }
  unfold read_2f. destruct neg.
  - rewrite append_cons, append_nil_l. rewrite Ascii.eqb_refl. cbv iota beta.
    rewrite Hbody. apply Hrest.
  - rewrite append_nil_l, append_cons. rewrite (digit_not_minus c Hc).
    cbv iota beta. rewrite <- append_cons, Hbody. apply Hrest.
Qed.

(** *** Shapes *)

Lemma format_2f_near (x : R) (n : Z) :
  (0 <= x)%R -> (IZR n - 1 / 2 < 100 * x < IZR n + 1 / 2)%R ->
  format_2f x = show_dec2 (Dec2 false n).
Proof.
  intros Hx Hn. unfold format_2f, to_dec2.
  destruct (Rlt_dec x 0); [ lra | ].
  rewrite (Rabs_right x) by lra. now rewrite (round_half_even_near _ n).
Qed.

Lemma format_2f_near_neg (x : R) (n : Z) :
  (x < 0)%R -> (IZR n - 1 / 2 < 100 * - x < IZR n + 1 / 2)%R ->
  format_2f x = show_dec2 (Dec2 true n).
Proof.
  intros Hx Hn. unfold format_2f, to_dec2.
  destruct (Rlt_dec x 0); [ | lra ].
  rewrite (Rabs_left x) by lra. now rewrite (round_half_even_near _ n).
Qed.

(** Half-way between two integers the even one is taken. *)
Lemma round_half_even_tie (z : Z) :
  round_half_even (IZR z + 1 / 2) = if Z.even z then z else (z + 1)%Z.
Proof.
  unfold round_half_even.
  rewrite <- (Int_part_spec (IZR z + 1 / 2) z) by lra.
  destruct (Rlt_dec (IZR z + 1 / 2 - IZR z) (1 / 2)); [ lra | ].
  destruct (Rlt_dec (1 / 2) (IZR z + 1 / 2 - IZR z)); [ lra | reflexivity ].
Qed.

Example format_2f_examples :
  format_2f 40 = "40.00" /\ format_2f (-40) = "-40.00"
  /\ format_2f 0 = "0.00" /\ format_2f (- (1 / 1000)) = "-0.00"
  /\ format_2f (1571 / 1000) = "1.57" /\ format_2f (- (39969 / 1000)) = "-39.97".
Proof.
  split; [ rewrite (format_2f_near _ 4000); [ reflexivity | lra | lra ] | ].
  split; [ rewrite (format_2f_near_neg _ 4000); [ reflexivity | lra | lra ] | ].
  split; [ rewrite (format_2f_near _ 0); [ reflexivity | lra | lra ] | ].
  split; [ rewrite (format_2f_near_neg _ 0); [ reflexivity | lra | lra ] | ].
  split; [ rewrite (format_2f_near _ 157); [ reflexivity | lra | lra ] | ].
  rewrite (format_2f_near_neg _ 3997); [ reflexivity | lra | lra ].
Qed.

Example format_2f_ties :
  format_2f (1 / 8) = "0.12" /\ format_2f (3 / 8) = "0.38".
Proof.
  unfold format_2f, to_dec2. split.
  - destruct (Rlt_dec (1 / 8) 0); [ lra | ].
    replace (100 * Rabs (1 / 8))%R with (IZR 12 + 1 / 2)%R
      by (rewrite Rabs_right; lra).
    rewrite round_half_even_tie. reflexivity.
  - destruct (Rlt_dec (3 / 8) 0); [ lra | ].
    replace (100 * Rabs (3 / 8))%R with (IZR 37 + 1 / 2)%R
      by (rewrite Rabs_right; lra).
    rewrite round_half_even_tie. reflexivity.
Qed.

Example linspace_example :
  linspace 0 3 4 = [0%R; 1%R; 2%R; 3%R] /\ linspace 5 7 1 = [5%R].
Proof.
  unfold linspace. simpl. split.
  - f_equal; [ lra | ]. f_equal; [ lra | ]. f_equal. lra.
  - f_equal. lra.
Qed.

Example Rmod_examples :
  Rmod (5 / 2) 1 = (1 / 2)%R /\ Rmod (- (1 / 2)) 1 = (1 / 2)%R
  /\ Rmod 3 3 = 0%R.
Proof.
  unfold Rmod. split; [ | split ].
  - rewrite <- (Int_part_spec (5 / 2 / 1) 2); lra.
  - rewrite <- (Int_part_spec (- (1 / 2) / 1) (-1)); lra.
  - rewrite <- (Int_part_spec (3 / 3) 1); lra.
Qed.

(** *** Position queries *)











(** ** Further properties of the generator and the scenario *)

(** *** Nodes *)

(** X1: the four nodes have distinct ids and lie on the circle of the given
    radius around the origin, whatever the sign of the radius. *)
Theorem nodes_on_circle (np : NetParams) (r : num) :
  additional_params np !! "radius" = Some r ->
  exists nodes,
    specify_nodes np = Ok (node_dict <$> nodes)
    /\ List.length nodes = 4%nat
    /\ NoDup (node_id <$> nodes)
    /\ forall n, n ∈ nodes ->
         norm2 (to_real (node_x n), to_real (node_y n))
         = (to_real r * to_real r)%R.
Proof.
  intros Hr. exists (ring_nodes r).
  split; [ exact (specify_nodes_ok _ _ Hr) | ].
  split; [ reflexivity | ].
  split; [ apply (bool_decide_unpack (NoDup _)); vm_compute; exact I | ].
  intros n Hn. unfold ring_nodes in Hn.
  rewrite !elem_of_cons, elem_of_nil in Hn. unfold norm2, dot.
  destruct Hn as [-> | [-> | [-> | [-> | []]]]]; cbn [node_x node_y fst snd];
    rewrite ?to_real_neg; simpl to_real; ring.
Qed.

Lemma read_int_repr (z : Z) : read_int (repr_int z) = Some z.
Proof.
  unfold read_int, repr_int. rewrite NilZero.isi.
  - cbn. now rewrite DecimalZ.of_to.
  - destruct z as [| p | p]; try discriminate.
    intros [= H]. now apply Unsigned.to_uint_nonnil in H.
  - destruct z as [| p | p]; try discriminate.
    intros [= H]. now apply Unsigned.to_uint_nonnil in H.
Qed.

(** X2: with an integer radius the [x] and [y] of every node descriptor
    are decimal numerals of integers, which read back as a point at that
    radius from the origin. *)
Theorem integer_radius_coordinates_read_back (np : NetParams) (z : Z) :
  additional_params np !! "radius" = Some (Int z) ->
  exists nodes,
    specify_nodes np = Ok nodes /\ List.length nodes = 4%nat
    /\ forall d, d ∈ nodes ->
         exists sx sy x y,
           d !! "x" = Some (Str sx) /\ d !! "y" = Some (Str sy)
           /\ read_int sx = Some x /\ read_int sy = Some y
           /\ (x * x + y * y = z * z)%Z.
Proof.
  intros Hr. eexists. split; [ exact (specify_nodes_ok _ _ Hr) | ].
  split; [ reflexivity | ].
  intros d Hd. apply list_elem_of_fmap in Hd as (n & -> & Hn).
  unfold ring_nodes in Hn. rewrite !elem_of_cons, elem_of_nil in Hn.
  destruct Hn as [-> | [-> | [-> | [-> | []]]]];
    eexists _, _, _, _;
    (split; [ reflexivity | ]); (split; [ reflexivity | ]);
    cbn [node_x node_y repr neg];
    (split; [ apply read_int_repr | ]); (split; [ apply read_int_repr | ]);
    lia.
Qed.

(** *** The graph *)


(** *** Routes *)

(** X4: the routes are rotations of one another: the route of the edge that
    follows the key is the rest of the route with the key moved to the
    end. *)
Theorem routes_rotate (np : NetParams) (k : string) (route : list string) :
  specify_routes np !! k = Some route ->
  exists n rest,
    route = k :: n :: rest
    /\ specify_routes np !! n = Some (n :: rest ++ [k]).
Proof.
  intros H. apply specify_routes_inv in H.
  rewrite !elem_of_cons, elem_of_nil in H.
  destruct H as [[= -> ->] | [[= -> ->] | [[= -> ->] | [[= -> ->] | []]]]];
    eexists _, _; split; reflexivity.
Qed.


(** *** What each method reads *)

Lemma without_lanes_and_speed_edge_dict (e : Edge) :
  without_lanes_and_speed (edge_dict e)
  = {[ "id" := Str (edge_id e);
       "from" := Str (edge_from e);
       "to" := Str (edge_to e);
       "length" := Str (repr (edge_length e));
       "shape" := Str (shape_string (edge_shape e)) ]}.
Proof.
  unfold without_lanes_and_speed, edge_dict.
  rewrite <- !insert_empty.
  repeat first [ rewrite delete_insert_eq
               | rewrite delete_insert_ne by discriminate
               | rewrite delete_empty ].
  reflexivity.
Qed.

(** X12: nodes, edge starts, and every attribute of the edges other than
    [numLanes] and [speed] depend on the radius alone: two configurations
    with the same radius get the same nodes, the same edge starts and,
    those two attributes apart, the same edges. *)
Theorem only_radius_shapes_the_ring (np1 np2 : NetParams) :
  additional_params np1 !! "radius" = additional_params np2 !! "radius" ->
  specify_nodes np1 = specify_nodes np2
  /\ specify_edge_starts np1 = specify_edge_starts np2
  /\ forall edges1 edges2,
       specify_edges np1 = Ok edges1 -> specify_edges np2 = Ok edges2 ->
       without_lanes_and_speed <$> edges1 = without_lanes_and_speed <$> edges2.
Proof.
  intros Hr.
  unfold specify_nodes, specify_edge_starts, specify_edges, getitem.
  rewrite Hr. split; [ reflexivity | ]. split; [ reflexivity | ].
  destruct (additional_params np2 !! "radius") as [r |]; [ | discriminate ].
  destruct (additional_params np1 !! "num_lanes") as [l1 |]; [ | discriminate ].
  destruct (additional_params np1 !! "speed_limit") as [s1 |];
    [ | discriminate ].
  destruct (additional_params np2 !! "num_lanes") as [l2 |]; [ | discriminate ].
  destruct (additional_params np2 !! "speed_limit") as [s2 |];
    [ | discriminate ].
  intros edges1 edges2 [= <-] [= <-].
  unfold ring_edges. cbn [fmap list_fmap].
  rewrite !without_lanes_and_speed_edge_dict. reflexivity.
Qed.

End Ring.

(** ** The default configuration *)


Lemma next_edge_returns_to_start_witness :
  specify_routes net_params !! "edge2" = Some ["edge2"; "edge3"; "edge0"; "edge1"]
  /\ iterate 4 (next_edge true (specify_routes net_params)) "edge2" = Ok "edge2"
  /\ iterate 4 (next_in_route true ["edge2"; "edge3"; "edge0"; "edge1"]) "edge2"
       = Ok "edge2".
Proof.
  split; [ reflexivity | ].
  apply (next_edge_returns_to_start net_params "edge2"
           ["edge2"; "edge3"; "edge0"; "edge1"]).
  reflexivity.
Defined.






(** ** The further properties on the default configuration *)

Lemma nodes_on_circle_witness :
  additional_params net_params !! "radius" = Some (Int 40)
  /\ exists nodes,
       specify_nodes repr_2f net_params = Ok (node_dict repr_2f <$> nodes)
       /\ List.length nodes = 4%nat
       /\ NoDup (node_id <$> nodes)
       /\ forall n, n ∈ nodes ->
            norm2 (to_real (node_x n), to_real (node_y n))
            = (to_real (Int 40) * to_real (Int 40))%R.
Proof.
  split; [ reflexivity | ].
  apply (nodes_on_circle repr_2f net_params (Int 40)). reflexivity.
Defined.

Lemma integer_radius_coordinates_read_back_witness :
  additional_params net_params !! "radius" = Some (Int 40)
  /\ exists nodes,
       specify_nodes repr_2f net_params = Ok nodes
       /\ List.length nodes = 4%nat
       /\ forall d, d ∈ nodes ->
            exists sx sy x y,
              d !! "x" = Some (Str sx) /\ d !! "y" = Some (Str sy)
              /\ read_int sx = Some x /\ read_int sy = Some y
              /\ (x * x + y * y = 40 * 40)%Z.
Proof.
  split; [ reflexivity | ].
  apply (integer_radius_coordinates_read_back repr_2f net_params 40).
  reflexivity.
Defined.


Lemma routes_rotate_witness :
  specify_routes net_params !! "edge3" = Some ["edge3"; "edge0"; "edge1"; "edge2"]
  /\ exists n rest,
       ["edge3"; "edge0"; "edge1"; "edge2"] = "edge3" :: n :: rest
       /\ specify_routes net_params !! n = Some (n :: rest ++ ["edge3"]).
Proof.
  split; [ reflexivity | ].
  apply (routes_rotate net_params "edge3" ["edge3"; "edge0"; "edge1"; "edge2"]).
  reflexivity.
Defined.


Lemma only_radius_shapes_the_ring_witness :
  additional_params net_params !! "radius"
  = additional_params two_lanes !! "radius"
  /\ specify_nodes repr_2f net_params = specify_nodes repr_2f two_lanes
  /\ specify_edge_starts net_params = specify_edge_starts two_lanes
  /\ forall edges1 edges2,
       specify_edges repr_2f net_params = Ok edges1 ->
       specify_edges repr_2f two_lanes = Ok edges2 ->
       without_lanes_and_speed <$> edges1 = without_lanes_and_speed <$> edges2.
Proof.
  split; [ reflexivity | ].
  apply (only_radius_shapes_the_ring repr_2f net_params two_lanes).
  reflexivity.
Defined.

(** * The notebook on binary64 numbers: properties *)

Section OnBinary64.

Import Binary64.

Variable P : Platform.

Ltac in_list :=
  repeat first [ apply list_elem_of_here | apply list_elem_of_further ].

(** ** Numbers *)

Lemma float_of_int_2 : float_of_int 2 = Ok 2%float.
Proof. vm_compute. reflexivity. Qed.

(** Only an [int] can fail to become a [float]. *)
Lemma to_float_Err (r : num) (e : exn) :
  to_float r = Err e ->
  exists z, r = Int z
            /\ e = OverflowError "int too large to convert to float".
Proof.
  destruct r as [z | f]; [ | discriminate ].
  cbn [to_float]. unfold float_of_int.
  destruct (finite (nearest z 0 false)); [ discriminate | ].
  intros [= <-]. now exists z.
Qed.

(** [r * pi / 2] fails exactly when the radius has no float. *)
Lemma edgelen_eval (r : num) :
  (r * pi / Int 2)%b64
  = (rf ← to_float r; mret (Float (rf * 0x1.921fb54442d18p+1 / 2))).
Proof.
  unfold div_, mul_, val. cbn [mbind result_bind].
  destruct r as [z | f]; cbn [mul pi to_float mbind result_bind].
  - destruct (float_of_int z) as [rf | e]; cbn [mbind result_bind];
      [ | reflexivity ].
    cbn [div to_float mbind result_bind]. rewrite float_of_int_2.
    reflexivity.
  - cbn [div to_float mbind result_bind]. rewrite float_of_int_2.
    reflexivity.
Qed.

Lemma mul_float64_eval (r : num) (rf c : float) :
  to_float r = Ok rf -> mul_float64 r c = Ok (rf * c)%float.
Proof. intros H. unfold mul_float64. now rewrite H. Qed.

Lemma mapM_result {A B : Type} (f : A -> result B) (g : A -> B) (l : list A) :
  (forall x, f x = Ok (g x)) -> mapM f l = Ok (g <$> l).
Proof.
  intros H. induction l as [| x l IH]; [ reflexivity | ].
  cbn [mapM fmap list_fmap]. rewrite H. cbn [mbind result_bind].
  change (mapM f l) with (mapM f l). rewrite IH. reflexivity.
Qed.

Lemma arc_eval (r : num) (rf : float) (start stop : result num) (a b : float) :
  to_float r = Ok rf ->
  start ≫= to_float = Ok a -> stop ≫= to_float = Ok b ->
  arc P r start stop = Ok (sample P rf <$> linspace a b 40).
Proof.
  intros Hr Ha Hb. unfold arc.
  destruct start as [x | e]; [ | discriminate Ha ].
  destruct stop as [y | e]; [ | discriminate Hb ].
  cbn [mbind result_bind] in *. rewrite Ha, Hb. cbn [mbind result_bind].
  apply mapM_result. intros t.
  rewrite !(mul_float64_eval _ _ _ Hr). reflexivity.
Qed.

Lemma turns_eval :
  (- pi / Int 2)%b64 ≫= to_float = Ok turn_m1
  /\ val (Int 0) ≫= to_float = Ok turn_0
  /\ (pi / Int 2)%b64 ≫= to_float = Ok turn_1
  /\ val pi ≫= to_float = Ok turn_2
  /\ (Int 3 * pi / Int 2)%b64 ≫= to_float = Ok turn_3.
Proof. repeat split; vm_compute; reflexivity. Qed.

(** ** When the methods return *)

Lemma specify_nodes_eval (np : NetParams) :
  specify_nodes P np
  = match additional_params np !! "radius" with
    | Some r => Ok (node_dict P <$> ring_nodes r)
    | None => Err (KeyError "radius")
    end.
Proof.
  unfold specify_nodes, getitem.
  destruct (additional_params np !! "radius"); reflexivity.
Qed.

Lemma specify_edges_returns (np : NetParams) (r lanes speed_limit : num)
    (rf : float) :
  configured np r lanes speed_limit -> to_float r = Ok rf ->
  specify_edges P np = Ok (edge_dict P <$> edges_of P rf lanes speed_limit).
Proof.
  intros (Hr & Hl & Hs) Hf. unfold specify_edges.
  rewrite (getitem_Some _ _ _ Hr). cbn [mbind result_bind].
  rewrite (edgelen_eval r), Hf. cbn [mbind result_bind mret result_ret].
  rewrite (getitem_Some _ _ _ Hl), (getitem_Some _ _ _ Hs).
  cbn [mbind result_bind].
  destruct turns_eval as (H0 & H1 & H2 & H3 & H4).
  rewrite (arc_eval _ _ _ _ _ _ Hf H0 H1). cbn [mbind result_bind].
  rewrite (arc_eval _ _ _ _ _ _ Hf H1 H2). cbn [mbind result_bind].
  rewrite (arc_eval _ _ _ _ _ _ Hf H2 H3). cbn [mbind result_bind].
  rewrite (arc_eval _ _ _ _ _ _ Hf H3 H4). cbn [mbind result_bind].
  reflexivity.
Qed.

(** What [specify_edges] does, case by case: the radius is read, then
    [r * pi / 2] is computed, then the other two keys are read. *)
Lemma specify_edges_eval (np : NetParams) :
  specify_edges P np
  = match additional_params np !! "radius" with
    | None => Err (KeyError "radius")
    | Some r =>
        match to_float r with
        | Err e => Err e
        | Ok rf =>
            match additional_params np !! "num_lanes" with
            | None => Err (KeyError "num_lanes")
            | Some lanes =>
                match additional_params np !! "speed_limit" with
                | None => Err (KeyError "speed_limit")
                | Some speed_limit =>
                    Ok (edge_dict P <$> edges_of P rf lanes speed_limit)
                end
            end
        end
    end.
Proof.
  destruct (additional_params np !! "radius") as [r |] eqn:Hr.
  2:{ unfold specify_edges. now rewrite (getitem_None _ _ Hr). }
  destruct (to_float r) as [rf | e] eqn:Hf.
  2:{ unfold specify_edges. rewrite (getitem_Some _ _ _ Hr).
      cbn [mbind result_bind]. rewrite (edgelen_eval r), Hf. reflexivity. }
  destruct (additional_params np !! "num_lanes") as [lanes |] eqn:Hl.
  2:{ unfold specify_edges. rewrite (getitem_Some _ _ _ Hr).
      cbn [mbind result_bind]. rewrite (edgelen_eval r), Hf.
      cbn [mbind result_bind mret result_ret].
      now rewrite (getitem_None _ _ Hl). }
  destruct (additional_params np !! "speed_limit") as [speed_limit |] eqn:Hs.
  2:{ unfold specify_edges. rewrite (getitem_Some _ _ _ Hr).
      cbn [mbind result_bind]. rewrite (edgelen_eval r), Hf.
      cbn [mbind result_bind mret result_ret].
      rewrite (getitem_Some _ _ _ Hl). cbn [mbind result_bind].
      now rewrite (getitem_None _ _ Hs). }
  apply (specify_edges_returns np r); [ now repeat split | exact Hf ].
Qed.

Lemma Ok_inj {A : Type} (a b : A) : Ok a = Ok b -> a = b.
Proof. now intros [= ->]. Qed.

Lemma specify_edges_inv (np : NetParams) (ds : list (gmap string value)) :
  specify_edges P np = Ok ds ->
  exists r lanes speed_limit rf,
    configured np r lanes speed_limit /\ to_float r = Ok rf
    /\ ds = edge_dict P <$> edges_of P rf lanes speed_limit.
Proof.
  rewrite specify_edges_eval. unfold configured.
  destruct (additional_params np !! "radius") as [r |]; [ | discriminate ].
  destruct (to_float r) as [rf |] eqn:Hf; [ | discriminate ].
  destruct (additional_params np !! "num_lanes") as [l |]; [ | discriminate ].
  destruct (additional_params np !! "speed_limit") as [s |];
    [ | discriminate ].
  intros H. apply Ok_inj in H. exists r, l, s, rf.
  split; [ repeat split | ]. split; [ exact Hf | now symmetry ].
Qed.

Lemma specify_edge_starts_eval (np : NetParams) :
  specify_edge_starts np
  = match additional_params np !! "radius" with
    | Some r => ring_edge_starts r
    | None => Err (KeyError "radius")
    end.
Proof.
  unfold specify_edge_starts, getitem.
  destruct (additional_params np !! "radius"); reflexivity.
Qed.

(** With a float radius the edge starts are float products and quotients:
    nothing can be raised. *)
Lemma ring_edge_starts_float (f : float) :
  ring_edge_starts (Float f)
  = Ok [ ("edge0", Int 0);
         ("edge1", Float (f * 1 / 2 * 0x1.921fb54442d18p+1));
         ("edge2", Float (f * 0x1.921fb54442d18p+1));
         ("edge3", Float (f * 3 / 2 * 0x1.921fb54442d18p+1)) ].
Proof.
  assert (H1 : float_of_int 1 = Ok 1%float) by (vm_compute; reflexivity).
  assert (H3 : float_of_int 3 = Ok 3%float) by (vm_compute; reflexivity).
  unfold ring_edge_starts, mul_, div_, val.
  repeat first [ rewrite H1 | rewrite H3 | rewrite float_of_int_2
               | progress cbn [mbind result_bind mul div to_float pi mret
                                 result_ret]
               | progress change (2 =? 0)%float with false ].
  reflexivity.
Qed.

(** ** What the methods raise *)

(** C8, as the code has it: when a required key is absent, [specify_edges]
    raises [KeyError] for the first absent key in the order [radius],
    [num_lanes], [speed_limit], unless the radius is present and is an
    [int] too large for a float: [r * pi / 2] is computed before
    [num_lanes] is read and raises [OverflowError].  [specify_nodes] reads
    [radius] only: it raises [KeyError('radius')] when that is absent and
    returns the four nodes otherwise.  Nothing is a [ConfigurationError],
    and no default value is put in. *)
Theorem absent_parameter_raises_KeyError (np : NetParams) (key : string) :
  first_missing required_keys (additional_params np) = Some key ->
  specify_edges P np
  = match additional_params np !! "radius" with
    | None => Err (KeyError "radius")
    | Some r =>
        match to_float r with
        | Err _ => Err (OverflowError "int too large to convert to float")
        | Ok _ => Err (KeyError key)
        end
    end
  /\ (forall r, additional_params np !! "radius" = Some r ->
        is_ok (to_float r) = false -> exists z, r = Int z)
  /\ specify_nodes P np
     = match additional_params np !! "radius" with
       | None => Err (KeyError "radius")
       | Some r => Ok (node_dict P <$> ring_nodes r)
       end
  /\ forall e, specify_edges P np = Err e \/ specify_nodes P np = Err e ->
       exn_class e <> "ConfigurationError".
Proof.
  intros Hkey.
  assert (Hedges :
    specify_edges P np
    = match additional_params np !! "radius" with
      | None => Err (KeyError "radius")
      | Some r =>
          match to_float r with
          | Err _ => Err (OverflowError "int too large to convert to float")
          | Ok _ => Err (KeyError key)
          end
      end).
  { rewrite specify_edges_eval.
    unfold required_keys in Hkey. cbn [first_missing] in Hkey.
    destruct (additional_params np !! "radius") as [r |]; [ | reflexivity ].
    destruct (to_float r) as [rf | e] eqn:Hf.
    2:{ apply to_float_Err in Hf as (z & _ & ->). reflexivity. }
    destruct (additional_params np !! "num_lanes");
      [ | now injection Hkey as <- ].
    destruct (additional_params np !! "speed_limit");
      [ discriminate Hkey | now injection Hkey as <- ]. }
  split; [ exact Hedges | ].
  split.
  { intros r _ Hf. destruct (to_float r) eqn:Hr; [ discriminate Hf | ].
    apply to_float_Err in Hr as (z & -> & _). now exists z. }
  split; [ apply specify_nodes_eval | ].
  intros e [He | He].
  - rewrite Hedges in He.
    destruct (additional_params np !! "radius") as [r |];
      [ destruct (to_float r) | ]; injection He as <-; discriminate.
  - rewrite specify_nodes_eval in He.
    destruct (additional_params np !! "radius");
      [ discriminate He | injection He as <-; discriminate ].
Qed.

(** X6: when the methods return.  [specify_nodes] returns exactly when the
    radius is present.  [specify_edges] returns exactly when the three keys
    are present and the radius has a float; what it raises otherwise is a
    [KeyError] for an absent key or the [OverflowError] of an [int]
    radius.  [specify_edge_starts] returns for every float radius, and
    raises nothing but [KeyError('radius')] and [OverflowError]. *)
Theorem generator_returns_iff_keys_present (np : NetParams) :
  (is_ok (specify_nodes P np) = true
   <-> is_Some (additional_params np !! "radius"))
  /\ (is_ok (specify_edges P np) = true
      <-> first_missing required_keys (additional_params np) = None
          /\ exists r, additional_params np !! "radius" = Some r
                       /\ is_ok (to_float r) = true)
  /\ (forall e, specify_edges P np = Err e ->
        (exists key, e = KeyError key /\ key ∈ required_keys
                     /\ additional_params np !! key = None)
        \/ (exists z, additional_params np !! "radius" = Some (Int z)
                      /\ float_of_int z = Err e
                      /\ exn_class e = "OverflowError"))
  /\ (forall f, additional_params np !! "radius" = Some (Float f) ->
        is_ok (specify_edge_starts np) = true)
  /\ (forall e, specify_edge_starts np = Err e ->
        (e = KeyError "radius" /\ additional_params np !! "radius" = None)
        \/ (exists z, additional_params np !! "radius" = Some (Int z)
                      /\ exn_class e = "OverflowError")).
Proof.
  split; [ | split; [ | split; [ | split ] ] ].
  - rewrite specify_nodes_eval.
    destruct (additional_params np !! "radius"); cbn; split;
      first [ reflexivity | discriminate | now eexists | now intros [? ?] ].
  - rewrite specify_edges_eval. unfold required_keys. cbn [first_missing].
    destruct (additional_params np !! "radius") as [r |].
    2:{ cbn. split; [ discriminate | now intros [? _] ]. }
    destruct (to_float r) as [rf | e] eqn:Hf.
    2:{ cbn. split; [ discriminate | ].
        intros (_ & r' & [= <-] & Hok). rewrite Hf in Hok. discriminate Hok. }
    destruct (additional_params np !! "num_lanes").
    2:{ cbn. split; [ discriminate | now intros [? _] ]. }
    destruct (additional_params np !! "speed_limit").
    2:{ cbn. split; [ discriminate | now intros [? _] ]. }
    cbn. split; [ | reflexivity ].
    intros _. split; [ reflexivity | ]. exists r. now rewrite Hf.
  - intros e. rewrite specify_edges_eval.
    destruct (additional_params np !! "radius") as [r |] eqn:Hr.
    2:{ intros [= <-]. left. exists "radius".
        split; [ reflexivity | split; [ in_list | exact Hr ] ]. }
    destruct (to_float r) as [rf | e'] eqn:Hf.
    2:{ intros [= <-]. right.
        destruct (to_float_Err _ _ Hf) as (z & -> & ->).
        exists z. split; [ reflexivity | ]. split; [ exact Hf | reflexivity ]. }
    destruct (additional_params np !! "num_lanes") eqn:Hl.
    2:{ intros [= <-]. left. exists "num_lanes".
        split; [ reflexivity | split; [ in_list | exact Hl ] ]. }
    destruct (additional_params np !! "speed_limit") eqn:Hs;
      [ discriminate | ].
    intros [= <-]. left. exists "speed_limit".
    split; [ reflexivity | split; [ in_list | exact Hs ] ].
  - intros f Hr.
    now rewrite specify_edge_starts_eval, Hr, ring_edge_starts_float.
  - intros e. rewrite specify_edge_starts_eval.
    destruct (additional_params np !! "radius") as [[z | f] |] eqn:Hr.
    + intros He. right. exists z. split; [ reflexivity | ].
      revert He. unfold ring_edge_starts, mul_, div_, val.
      cbn [mbind result_bind mul div to_float pi].
      unfold int_true_divide, float_of_int.
      change (2 =? 0)%Z with false. cbv iota.
      repeat match goal with
             | |- context [ if finite ?f then _ else _ ] =>
                 destruct (finite f)
             end; cbn [mbind result_bind mret result_ret];
        first [ discriminate | intros [= <-]; reflexivity ].
    + intros He. exfalso.
      rewrite ring_edge_starts_float in He. discriminate He.
    + intros [= <-]. now left.
Qed.

(** ** Strings of floats *)

Lemma hundredths_of_nonneg (m : positive) (e : Z) : (0 <= hundredths_of m e)%Z.
Proof.
  unfold hundredths_of. destruct (0 <=? e)%Z eqn:He.
  - apply Z.leb_le in He. apply Z.mul_nonneg_nonneg; [ lia | ].
    now apply Z.pow_nonneg.
  - apply Z.leb_gt in He.
    assert (Hd : (0 < 2 ^ (- e))%Z) by (apply Z.pow_pos_nonneg; lia).
    assert (Hq : (0 <= 100 * Z.pos m / 2 ^ (- e))%Z)
      by (apply Z.div_pos; lia).
    destruct (2 * ((100 * Z.pos m) mod 2 ^ (- e)) ?= 2 ^ (- e))%Z;
      [ destruct (Z.even _) | | ]; lia.
Qed.

(** ["%.2f"] prints a finite number as a numeral with two decimal places
    and the other numbers by name. *)
Lemma format_2f_spec (f : float) :
  match dec2_of_float f with
  | Some d =>
      finite f = true /\ format_2f f = show_dec2 d /\ (0 <= hundredths d)%Z
  | None => finite f = false /\ format_2f f ∈ ["inf"; "-inf"; "nan"]
  end.
Proof.
  unfold dec2_of_float, finite, format_2f.
  destruct (Prim2SF f) as [s | s | | s m e].
  - repeat split. cbn. lia.
  - split; [ reflexivity | ]. destruct s; in_list.
  - split; [ reflexivity | ]. in_list.
  - repeat split. cbn. apply hundredths_of_nonneg.
Qed.

Lemma is_2f_format_2f (f : float) : is_2f (format_2f f) = finite f.
Proof.
  pose proof (format_2f_spec f) as H.
  destruct (dec2_of_float f) as [d |].
  - destruct H as (-> & -> & _). apply is_2f_show.
  - destruct H as (-> & H). rewrite !elem_of_cons, elem_of_nil in H.
    destruct H as [-> | [-> | [-> | []]]]; reflexivity.
Qed.

Lemma format_2f_lacks (c : ascii) (f : float) :
  c = " "%char \/ c = ","%char -> lacks c (format_2f f) = true.
Proof.
  intros Hc. pose proof (format_2f_spec f) as H.
  destruct (dec2_of_float f) as [d |].
  - destruct H as (_ & -> & _).
    apply is_2f_lacks; [ | | | apply is_2f_show ];
      destruct Hc as [-> | ->]; first [ reflexivity | discriminate ].
  - destruct H as (_ & H). rewrite !elem_of_cons, elem_of_nil in H.
    destruct H as [-> | [-> | [-> | []]]]; destruct Hc as [-> | ->];
      reflexivity.
Qed.

Lemma split_pair_string (p : float * float) :
  split_on "," (pair_string p) = [format_2f p.1; format_2f p.2].
Proof.
  unfold pair_string. rewrite append_cons, append_nil_l.
  rewrite split_on_append, split_on_lacks;
    [ reflexivity | | ]; apply format_2f_lacks; now right.
Qed.

Lemma pair_string_lacks_space (p : float * float) :
  lacks " " (pair_string p) = true.
Proof.
  unfold pair_string. rewrite !lacks_append.
  rewrite !format_2f_lacks by now left. reflexivity.
Qed.

Lemma is_pair_pair_string (p : float * float) :
  is_pair (pair_string p) = finite p.1 && finite p.2.
Proof.
  unfold is_pair. now rewrite split_pair_string, !is_2f_format_2f.
Qed.



(** The items of a shape string are the pairs of its points. *)
Lemma shape_items (pts : list (float * float)) :
  pts <> [] -> split_on " " (shape_string pts) = pair_string <$> pts.
Proof.
  intros Hne. unfold shape_string. apply split_on_join.
  - destruct pts; [ congruence | discriminate ].
  - apply Forall_fmap, Forall_forall. intros p _.
    apply pair_string_lacks_space.
Qed.

Lemma is_shape_iff_finite (pts : list (float * float)) :
  pts <> [] ->
  is_shape (shape_string pts) = true
  <-> forall p, p ∈ pts -> finite p.1 = true /\ finite p.2 = true.
Proof.
  intros Hne. unfold is_shape. rewrite (shape_items _ Hne).
  rewrite forallb_forall. split.
  - intros H p Hp. apply andb_prop. rewrite <- is_pair_pair_string.
    apply H, in_map, list_elem_of_In, Hp.
  - intros H s Hs. apply in_map_iff in Hs as (p & <- & Hp).
    apply list_elem_of_In, H in Hp as [H1 H2].
    now rewrite is_pair_pair_string, H1, H2.
Qed.

(** ** Shapes *)

Lemma linspace_samples (a b : float) (n : nat) :
  List.length (linspace a b n) = n.
Proof.
  unfold linspace. destruct (1 <? n)%nat;
    rewrite ?length_insert, length_map, length_seq; reflexivity.
Qed.

(** The shape of every edge is forty samples of the platform's cosine and
    sine, scaled by the radius. *)
Lemma edges_of_shapes (rf : float) (lanes speed_limit : num) (e : Edge) :
  e ∈ edges_of P rf lanes speed_limit ->
  exists a b,
    edge_shape e = sample P rf <$> linspace a b 40
    /\ (a, b) ∈ [ (turn_m1, turn_0); (turn_0, turn_1); (turn_1, turn_2);
                  (turn_2, turn_3) ].
Proof.
  unfold edges_of, ring_edges. rewrite !elem_of_cons, elem_of_nil.
  intros [-> | [-> | [-> | [-> | []]]]]; eexists _, _;
    (split; [ reflexivity | in_list ]).
Qed.

Lemma edges_of_shape_length (rf : float) (lanes speed_limit : num) (e : Edge) :
  e ∈ edges_of P rf lanes speed_limit -> List.length (edge_shape e) = 40%nat.
Proof.
  intros He. apply edges_of_shapes in He as (a & b & -> & _).
  now rewrite length_fmap, linspace_samples.
Qed.

(** C7, as the code has it: every shape string is forty items separated by
    spaces, each item two coordinates separated by a comma, each coordinate
    written by ["%.2f"]: with exactly two decimal places when the coordinate
    is a finite number, and as [inf], [-inf] or [nan] when it is not.  The
    string is a sequence of two-decimal pairs exactly when all its
    coordinates are finite. *)
Theorem shape_strings_two_decimals (np : NetParams)
    (edges : list (gmap string value)) :
  specify_edges P np = Ok edges ->
  forall d, d ∈ edges ->
    exists s pts r rf a b,
      d !! "shape" = Some (Str s) /\ List.length pts = 40%nat
      /\ additional_params np !! "radius" = Some r /\ to_float r = Ok rf
      /\ pts = sample P rf <$> linspace a b 40
      /\ (a, b) ∈ [ (turn_m1, turn_0); (turn_0, turn_1); (turn_1, turn_2);
                    (turn_2, turn_3) ]
      /\ split_on " " s = pair_string <$> pts
      /\ (forall p, p ∈ pts ->
            split_on "," (pair_string p) = [format_2f p.1; format_2f p.2]
            /\ forall c, c ∈ [p.1; p.2] ->
                 if finite c then is_2f (format_2f c) = true
                 else format_2f c ∈ ["inf"; "-inf"; "nan"])
      /\ (is_shape s = true
          <-> forall p, p ∈ pts -> finite p.1 = true /\ finite p.2 = true).
Proof.
  intros Hok d Hd.
  apply specify_edges_inv in Hok
    as (r & lanes & speed & rf & (Hr & _) & Hf & ->).
  apply list_elem_of_fmap in Hd as (e & -> & He).
  pose proof (edges_of_shape_length _ _ _ _ He) as Hlen.
  destruct (edges_of_shapes _ _ _ _ He) as (a & b & Hshape & Hab).
  assert (Hne : edge_shape e <> []).
  { intros Hnil. rewrite Hnil in Hlen. discriminate Hlen. }
  exists (shape_string (edge_shape e)), (edge_shape e), r, rf, a, b.
  split; [ reflexivity | ]. split; [ exact Hlen | ].
  split; [ exact Hr | ]. split; [ exact Hf | ]. split; [ exact Hshape | ].
  split; [ exact Hab | ].
  split; [ exact (shape_items _ Hne) | ].
  split; [ | exact (is_shape_iff_finite _ Hne) ].
  intros p _. split; [ apply split_pair_string | ].
  intros c _. pose proof (format_2f_spec c) as H.
  destruct (dec2_of_float c).
  - destruct H as (-> & -> & _). apply is_2f_show.
  - destruct H as (-> & H). exact H.
Qed.

(** ** Descriptor attributes *)

Lemma node_dict_all_strings (n : Node) :
  map_Forall (fun _ v => is_str v = true) (node_dict P n).
Proof.
  unfold node_dict. repeat apply map_Forall_insert_2; try reflexivity.
  apply map_Forall_empty.
Qed.

Lemma edge_dict_all_strings (e : Edge) :
  map_Forall (fun _ v => is_str v = true) (edge_dict P e).
Proof.
  unfold edge_dict. repeat apply map_Forall_insert_2; try reflexivity.
  apply map_Forall_empty.
Qed.

(** C9, as the code has it: every attribute of the descriptors is a string.
    A node's [x] and [y] are the [repr] of [0], of the radius or of its
    opposite.  When the radius has a float, an edge's [length] is the [repr]
    of the float that [r * pi / 2] comes to, and [numLanes] and [speed] are
    the [repr] of the [num_lanes] and [speed_limit] parameters as supplied;
    when the radius is an [int] too large for a float, [specify_edges]
    raises instead. *)
Theorem descriptors_hold_reprs (np : NetParams) (r lanes speed_limit : num) :
  configured np r lanes speed_limit ->
  (exists nodes,
     specify_nodes P np = Ok nodes /\ List.length nodes = 4%nat
     /\ forall d, d ∈ nodes ->
          map_Forall (fun _ v => is_str v = true) d
          /\ exists nx ny,
               d !! "x" = Some (Str (repr P nx))
               /\ d !! "y" = Some (Str (repr P ny))
               /\ nx ∈ [Int 0; r; neg r] /\ ny ∈ [Int 0; r; neg r])
  /\ match to_float r with
     | Err e => specify_edges P np = Err e
     | Ok rf =>
         exists edges,
           specify_edges P np = Ok edges /\ List.length edges = 4%nat
           /\ forall d, d ∈ edges ->
                map_Forall (fun _ v => is_str v = true) d
                /\ d !! "length"
                   = Some (Str (repr P (Float (rf * 0x1.921fb54442d18p+1 / 2))))
                /\ d !! "numLanes" = Some (Str (repr P lanes))
                /\ d !! "speed" = Some (Str (repr P speed_limit))
     end.
Proof.
  intros Hcfg. pose proof Hcfg as (Hr & Hl & Hs). split.
  - eexists. rewrite specify_nodes_eval, Hr. split; [ reflexivity | ].
    split; [ reflexivity | ].
    intros d Hd. apply list_elem_of_fmap in Hd as (n & -> & Hn).
    split; [ apply node_dict_all_strings | ].
    unfold ring_nodes in Hn. rewrite !elem_of_cons, elem_of_nil in Hn.
    destruct Hn as [-> | [-> | [-> | [-> | []]]]];
      eexists _, _; (split; [ reflexivity | ]); (split; [ reflexivity | ]);
      cbn [node_x node_y]; split; in_list.
  - destruct (to_float r) as [rf | e] eqn:Hf.
    + eexists. split; [ exact (specify_edges_returns _ _ _ _ _ Hcfg Hf) | ].
      split; [ reflexivity | ].
      intros d Hd. apply list_elem_of_fmap in Hd as (e & -> & He).
      split; [ apply edge_dict_all_strings | ].
      unfold edges_of, ring_edges in He.
      rewrite !elem_of_cons, elem_of_nil in He.
      destruct He as [-> | [-> | [-> | [-> | []]]]]; repeat split.
    + now rewrite specify_edges_eval, Hr, Hf.
Qed.

(** ** Edge starts and edge lengths, radius by radius *)







(** With an [int] radius the two halves [r * 1 / 2] and [r * 3 / 2] are
    quotients of integers, and [r * pi] converts the radius. *)
Lemma ring_edge_starts_int (z : Z) :
  ring_edge_starts (Int z)
  = (h1 ← int_true_divide (z * 1) 2;
     rf ← float_of_int z;
     h3 ← int_true_divide (z * 3) 2;
     mret [ ("edge0", Int 0);
            ("edge1", Float (h1 * 0x1.921fb54442d18p+1));
            ("edge2", Float (rf * 0x1.921fb54442d18p+1));
            ("edge3", Float (h3 * 0x1.921fb54442d18p+1)) ]).
Proof.
  unfold ring_edge_starts, mul_, div_, val.
  cbn [mbind result_bind mul div to_float pi].
  destruct (int_true_divide (z * 1) 2); cbn [mbind result_bind mul to_float];
    [ | reflexivity ].
  destruct (float_of_int z); cbn [mbind result_bind mul to_float];
    [ | reflexivity ].
  destruct (int_true_divide (z * 3) 2); cbn [mbind result_bind mul to_float];
    reflexivity.
Qed.



(** ** The ends of the shapes *)

(** [linspace] starts at its first argument and, the last sample being
    overwritten, ends at its second. *)
Lemma linspace_turns :
  Forall (fun ab : float * float =>
            head (linspace ab.1 ab.2 40) = Some ab.1
            /\ last (linspace ab.1 ab.2 40) = Some ab.2)
    [ (turn_m1, turn_0); (turn_0, turn_1); (turn_1, turn_2);
      (turn_2, turn_3) ].
Proof. repeat constructor; vm_compute; reflexivity. Qed.

Lemma sampled_ends (rf a b : float) :
  head (linspace a b 40) = Some a /\ last (linspace a b 40) = Some b ->
  let pts := sample P rf <$> linspace a b 40 in
  head (split_on " " (shape_string pts)) = Some (pair_string (sample P rf a))
  /\ last (split_on " " (shape_string pts)) = Some (pair_string (sample P rf b))
  /\ head pts = Some (sample P rf a) /\ last pts = Some (sample P rf b).
Proof.
  intros [Hh Hl] pts.
  assert (Hne : pts <> []).
  { intros Hnil. apply (f_equal List.length) in Hnil.
    unfold pts in Hnil. rewrite length_fmap, linspace_samples in Hnil.
    discriminate Hnil. }
  rewrite (shape_items _ Hne). unfold pts.
  rewrite !fmap_last, Hl.
  rewrite !head_lookup, !list_lookup_fmap, <- head_lookup, Hh.
  repeat split.
Qed.




(** X10: consecutive edges meet.  The [to] node of each edge is the [from]
    node of the next one around the ring.  From [edge0] to [edge1], from
    [edge1] to [edge2] and from [edge2] to [edge3] the last point of one
    shape and the first point of the next are the same pair of floats,
    spelled by the same item, whatever the radius and the platform: the two
    samples are taken at the same angle.  From [edge3] back to [edge0] the
    angles differ, [3 * pi / 2] against [- pi / 2], and the two points are
    what the platform makes of each. *)
Theorem consecutive_shapes_meet (np : NetParams)
    (edges : list (gmap string value)) :
  specify_edges P np = Ok edges ->
  exists e0 e1 e2 e3 rf,
    edges = edge_dict P <$> [e0; e1; e2; e3]
    /\ edge_to e0 = edge_from e1 /\ edge_to e1 = edge_from e2
    /\ edge_to e2 = edge_from e3 /\ edge_to e3 = edge_from e0
    /\ (forall ea eb, (ea, eb) ∈ [(e0, e1); (e1, e2); (e2, e3)] ->
          exists pt sa sb item,
            last (edge_shape ea) = Some pt /\ head (edge_shape eb) = Some pt
            /\ edge_dict P ea !! "shape" = Some (Str sa)
            /\ edge_dict P eb !! "shape" = Some (Str sb)
            /\ last (split_on " " sa) = Some item
            /\ head (split_on " " sb) = Some item)
    /\ last (edge_shape e3) = Some (sample P rf turn_3)
    /\ head (edge_shape e0) = Some (sample P rf turn_m1).
Proof.
  intros Hok.
  apply specify_edges_inv in Hok as (r & lanes & speed & rf & _ & _ & ->).
  pose proof linspace_turns as Hl.
  apply Forall_cons in Hl as [H0 Hl]. apply Forall_cons in Hl as [H1 Hl].
  apply Forall_cons in Hl as [H2 Hl]. apply Forall_cons in Hl as [H3 _].
  cbn [fst snd] in H0, H1, H2, H3.
  destruct (sampled_ends rf _ _ H0) as (Hf0 & Hl0 & Hh0 & Ht0).
  destruct (sampled_ends rf _ _ H1) as (Hf1 & Hl1 & Hh1 & Ht1).
  destruct (sampled_ends rf _ _ H2) as (Hf2 & Hl2 & Hh2 & Ht2).
  destruct (sampled_ends rf _ _ H3) as (Hf3 & Hl3 & Hh3 & Ht3).
  unfold edges_of, ring_edges. eexists _, _, _, _, rf.
  split; [ reflexivity | ]. do 4 (split; [ reflexivity | ]).
  cbn [edge_shape]. split; [ | split; [ exact Ht3 | exact Hh0 ] ].
  intros ea eb Hab. rewrite !elem_of_cons, elem_of_nil in Hab.
  rewrite !pair_equal_spec in Hab.
  destruct Hab as [[-> ->] | [[-> ->] | [[-> ->] | []]]];
    cbn [edge_shape]; eexists _, _, _, _.
  - split; [ exact Ht0 | ]. split; [ exact Hh1 | ].
    split; [ reflexivity | ]. split; [ reflexivity | ].
    split; [ exact Hl0 | exact Hf1 ].
  - split; [ exact Ht1 | ]. split; [ exact Hh2 | ].
    split; [ reflexivity | ]. split; [ reflexivity | ].
    split; [ exact Hl1 | exact Hf2 ].
  - split; [ exact Ht2 | ]. split; [ exact Hh3 | ].
    split; [ reflexivity | ]. split; [ reflexivity | ].
    split; [ exact Hl2 | exact Hf3 ].
Qed.

(** A product with an infinity is never a finite number. *)
Lemma mul_infinity_not_finite (c : float) : finite (infinity * c) = false.
Proof.
  unfold finite. rewrite mul_spec.
  change (Prim2SF infinity) with (S754_infinity false).
  unfold SF64mul, SFmul. destruct (Prim2SF c); reflexivity.
Qed.

(** ** What ["%.2f"] loses *)

Lemma hundredths_of_error (m : positive) (e : Z) :
  (Rabs (IZR (hundredths_of m e)
         - 100 * (IZR (Z.pos m)
                  * (if (0 <=? e)%Z then IZR (2 ^ e) else / IZR (2 ^ (- e)))))
   <= 1 / 2)%R.
Proof.
  unfold hundredths_of. destruct (0 <=? e)%Z eqn:He.
  - rewrite !mult_IZR.
    replace (100 * IZR (Z.pos m) * IZR (2 ^ e)
             - 100 * (IZR (Z.pos m) * IZR (2 ^ e)))%R with 0%R by ring.
    rewrite Rabs_R0. lra.
  - apply Z.leb_gt in He.
    set (d := (2 ^ (- e))%Z). set (n := (100 * Z.pos m)%Z).
    assert (Hd : (0 < d)%Z) by (apply Z.pow_pos_nonneg; lia).
    pose proof (Z.div_mod n d ltac:(lia)) as Hdiv.
    pose proof (Z.mod_pos_bound n d Hd) as [Hr0 Hr1].
    set (q := (n / d)%Z) in *. set (r := (n mod d)%Z) in *.
    assert (HdR : (0 < IZR d)%R) by (apply IZR_lt; exact Hd).
    assert (Hn : (100 * IZR (Z.pos m) = IZR d * IZR q + IZR r)%R).
    { change 100%R with (IZR 100). rewrite <- mult_IZR.
      fold n. rewrite Hdiv, plus_IZR, mult_IZR. reflexivity. }
    assert (Hv : (100 * (IZR (Z.pos m) * / IZR d) = IZR q + IZR r / IZR d)%R).
    { replace (100 * (IZR (Z.pos m) * / IZR d))%R
        with ((100 * IZR (Z.pos m)) / IZR d)%R by (field; lra).
      rewrite Hn. field. lra. }
    rewrite Hv.
    assert (Hr0R : (0 <= IZR r)%R) by (apply IZR_le; exact Hr0).
    assert (Hr1R : (IZR r < IZR d)%R) by (apply IZR_lt; exact Hr1).
    assert (Hfrac : forall x : R, (IZR r / IZR d = x)%R ->
              (x * IZR d = IZR r)%R).
    { intros x <-. field. lra. }
    set (x := (IZR r / IZR d)%R) in *.
    specialize (Hfrac x eq_refl).
    destruct (2 * r ?= d)%Z eqn:Hc.
    + apply Z.compare_eq in Hc. apply (f_equal IZR) in Hc.
      rewrite mult_IZR in Hc.
      assert (Hx : x = (1 / 2)%R) by nra.
      destruct (Z.even q); rewrite ?plus_IZR, Hx; apply Rabs_le; split; lra.
    + apply Z.compare_lt_iff, IZR_lt in Hc. rewrite mult_IZR in Hc.
      apply Rabs_le. split; nra.
    + apply Z.compare_gt_iff, IZR_lt in Hc. rewrite mult_IZR in Hc.
      rewrite plus_IZR. apply Rabs_le. split; nra.
Qed.

(** The numeral that ["%.2f"] prints for a finite number stands within half
    a hundredth of the number. *)
Lemma dec2_of_float_error (f : float) (d : dec2) :
  dec2_of_float f = Some d ->
  (Rabs (dec2_value d - float_value f) <= 1 / 200)%R.
Proof.
  unfold dec2_of_float, float_value.
  destruct (Prim2SF f) as [s | s | | s m e]; try discriminate.
  - intros [= <-]. unfold dec2_value. cbn [negative hundredths].
    replace ((if s then -1 else 1) * 0 / 100 - 0)%R with 0%R
      by (destruct s; field).
    rewrite Rabs_R0. lra.
  - intros [= <-]. unfold dec2_value. cbn [negative hundredths].
    pose proof (hundredths_of_error m e) as H.
    apply Rabs_le_bounds in H. apply Rabs_le.
    destruct s; split; lra.
Qed.

(** X7: every coordinate that a shape string spells stands within half a
    hundredth of the binary64 coordinate [r * cos(t)] or [r * sin(t)] it was
    printed from, whenever that coordinate is finite; a pair reads back
    exactly when both its coordinates are finite. *)
Theorem spelled_points_near_samples (np : NetParams)
    (edges : list (gmap string value)) :
  specify_edges P np = Ok edges ->
  forall d, d ∈ edges ->
    exists s pts r rf a b,
      d !! "shape" = Some (Str s) /\ List.length pts = 40%nat
      /\ additional_params np !! "radius" = Some r /\ to_float r = Ok rf
      /\ pts = sample P rf <$> linspace a b 40
      /\ (a, b) ∈ [ (turn_m1, turn_0); (turn_0, turn_1); (turn_1, turn_2);
                    (turn_2, turn_3) ]
      /\ split_on " " s = pair_string <$> pts
      /\ forall p, p ∈ pts ->
           read_pair (pair_string p) = spelled p
           /\ (is_Some (spelled p)
               <-> finite p.1 = true /\ finite p.2 = true)
           /\ forall q, spelled p = Some q ->
                (Rabs (dec2_value q.1 - float_value p.1) <= 1 / 200)%R
                /\ (Rabs (dec2_value q.2 - float_value p.2) <= 1 / 200)%R.
Proof.
  intros Hok d Hd.
  apply specify_edges_inv in Hok
    as (r & lanes & speed & rf & (Hr & _) & Hf & ->).
  apply list_elem_of_fmap in Hd as (e & -> & He).
  pose proof (edges_of_shape_length _ _ _ _ He) as Hlen.
  destruct (edges_of_shapes _ _ _ _ He) as (a & b & Hshape & Hab).
  assert (Hne : edge_shape e <> []).
  { intros Hnil. rewrite Hnil in Hlen. discriminate Hlen. }
  exists (shape_string (edge_shape e)), (edge_shape e), r, rf, a, b.
  split; [ reflexivity | ]. split; [ exact Hlen | ].
  split; [ exact Hr | ]. split; [ exact Hf | ]. split; [ exact Hshape | ].
  split; [ exact Hab | ].
  split; [ exact (shape_items _ Hne) | ].
  intros p _.
  pose proof (format_2f_spec p.1) as H1. pose proof (format_2f_spec p.2) as H2.
  pose proof (dec2_of_float_error p.1) as E1.
  pose proof (dec2_of_float_error p.2) as E2.
  unfold spelled, read_pair. rewrite split_pair_string.
  destruct (dec2_of_float p.1) as [x |] eqn:Hx.
  - destruct H1 as (Hfin1 & Hfmt1 & Hnn1).
    rewrite Hfmt1, (read_2f_show _ Hnn1).
    destruct (dec2_of_float p.2) as [y |] eqn:Hy.
    + destruct H2 as (Hfin2 & Hfmt2 & Hnn2).
      rewrite Hfmt2, (read_2f_show _ Hnn2). cbn.
      split; [ reflexivity | ].
      split; [ split; [ intros _; split; assumption
                      | intros _; eexists; reflexivity ] | ].
      intros q [= <-]. cbn [fst snd]. split; [ now apply E1 | now apply E2 ].
    + destruct H2 as (Hfin2 & H2). cbn.
      assert (Hnone : read_2f (format_2f p.2) = None).
      { rewrite !elem_of_cons, elem_of_nil in H2.
        destruct H2 as [-> | [-> | [-> | []]]]; reflexivity. }
      rewrite Hnone. cbn.
      split; [ reflexivity | ].
      split; [ split; [ now intros [? ?] | intros [_ H]; congruence ] | ].
      discriminate.
  - destruct H1 as (Hfin1 & H1). cbn.
    assert (Hnone : read_2f (format_2f p.1) = None).
    { rewrite !elem_of_cons, elem_of_nil in H1.
      destruct H1 as [-> | [-> | [-> | []]]]; reflexivity. }
    rewrite Hnone. cbn.
    split; [ reflexivity | ].
    split; [ split; [ now intros [? ?] | intros [H _]; congruence ] | ].
    discriminate.
Qed.

(** ** The sign of the radius *)

Lemma signs_check_range : forallb signs_check (seqZ (- 1000) 2001) = true.
Proof. vm_compute. reflexivity. Qed.

(** X11: the radius is used as given.  For every integer radius from -1000
    to 1000 the three offsets after the origin increase strictly exactly
    when the radius is positive, decrease strictly exactly when it is
    negative, and are all zero exactly when it is zero. *)
Theorem edge_starts_follow_the_sign_of_the_radius (np : NetParams) (z : Z) :
  additional_params np !! "radius" = Some (Int z) ->
  (- 1000 <= z <= 1000)%Z ->
  exists o1 o2 o3,
    specify_edge_starts np
    = Ok [ ("edge0", Int 0); ("edge1", Float o1); ("edge2", Float o2);
           ("edge3", Float o3) ]
    /\ ((0 <? o1)%float && (o1 <? o2)%float && (o2 <? o3)%float = true
        <-> (0 < z)%Z)
    /\ ((o1 <? 0)%float && (o2 <? o1)%float && (o3 <? o2)%float = true
        <-> (z < 0)%Z)
    /\ ((o1 =? 0)%float && (o2 =? 0)%float && (o3 =? 0)%float = true
        <-> z = 0%Z).
Proof.
  intros Hr Hz.
  assert (Hchk : signs_check z = true).
  { pose proof signs_check_range as H. rewrite forallb_forall in H.
    apply H, list_elem_of_In, elem_of_seqZ. lia. }
  unfold signs_check in Hchk. rewrite ring_edge_starts_int in Hchk.
  rewrite specify_edge_starts_eval, Hr, ring_edge_starts_int.
  destruct (int_true_divide (z * 1) 2) as [h1 |];
    cbn [mbind result_bind mret result_ret] in *; [ | discriminate ].
  destruct (float_of_int z) as [rf |];
    cbn [mbind result_bind mret result_ret] in *; [ | discriminate ].
  destruct (int_true_divide (z * 3) 2) as [h3 |];
    cbn [mbind result_bind mret result_ret] in *; [ | discriminate ].
  eexists _, _, _. split; [ reflexivity | ].
  apply andb_prop in Hchk as [Hchk H3]. apply andb_prop in Hchk as [H1 H2].
  apply Bool.eqb_prop in H1, H2, H3.
  rewrite H1, H2, H3. rewrite Z.ltb_lt, Z.ltb_lt, Z.eqb_eq. repeat split; auto.
Qed.

End OnBinary64.

(** * The binary64 model on particular parameters *)

Section OnParameters.

Import Binary64.


Lemma default_configured : configured net_params (Int 40) (Int 1) (Int 30).
Proof. repeat split; reflexivity. Qed.

Lemma with_radius_configured (r : num) :
  configured (with_radius r) r (Int 1) (Int 30).
Proof. repeat split; reflexivity. Qed.


(** ** The methods on small inputs *)

Example float_of_int_examples :
  float_of_int 40 = Ok 40%float
  /\ float_of_int (2 ^ 53 + 1) = Ok 0x1p+53%float
  /\ float_of_int (10 ^ 400)
     = Err (OverflowError "int too large to convert to float")
  /\ int_true_divide 1 3 = Ok 0x1.5555555555555p-2%float
  /\ int_true_divide 0 (- 5) = Ok (- 0)%float
  /\ int_true_divide (10 ^ 400) (10 ^ 399) = Ok 10%float
  /\ int_true_divide (10 ^ 400) 2
     = Err (OverflowError "integer division result too large for a float")
  /\ int_true_divide 1 0 = Err (ZeroDivisionError "division by zero").
Proof. repeat split; vm_compute; reflexivity. Qed.

Example format_2f_examples_binary64 :
  format_2f 0.125 = "0.12" /\ format_2f 0.375 = "0.38"
  /\ format_2f 0x1.5666666666666p+1 = "2.67"
  /\ format_2f (-40) = "-40.00" /\ format_2f (-0x1p-47) = "-0.00"
  /\ format_2f infinity = "inf" /\ format_2f neg_infinity = "-inf"
  /\ format_2f nan = "nan".
Proof. repeat split; vm_compute; reflexivity. Qed.

(** With the default radius, on the platform of the table: the first
    three points of the shape of [edge0], which starts at the bottom node,
    and the last point of the shape of [edge3], which ends there with a
    zero that carries the sign of the rounding error. *)
Example default_shape_items :
  pair_string <$> (sample table_platform 40 <$> take 3 (linspace turn_m1 turn_0 40))
  = ["0.00,-40.00"; "1.61,-39.97"; "3.22,-39.87"]
  /\ pair_string (sample table_platform 40 turn_3) = "-0.00,-40.00".
Proof. split; vm_compute; reflexivity. Qed.

(** A radius that has a float, but whose three halves have none:
    [specify_edges] returns and [specify_edge_starts] raises. *)
Example large_int_radius :
  is_ok (specify_edges table_platform (with_radius (Int (3 * 2 ^ 1022)))) = true
  /\ specify_edge_starts (with_radius (Int (3 * 2 ^ 1022)))
     = Err (OverflowError "integer division result too large for a float")
  /\ specify_edges table_platform (with_radius (Int (10 ^ 400)))
     = Err (OverflowError "int too large to convert to float")
  /\ specify_edges table_platform (radius_only (Int (10 ^ 400)))
     = Err (OverflowError "int too large to convert to float").
Proof. repeat split; vm_compute; reflexivity. Qed.

(** ** Inputs at which the statements of the specification fail *)




(** C7 does not hold for every radius: with the radius [float('inf')], on
    every platform, no shape string is a sequence of two-decimal pairs. *)
Lemma infinite_radius_shapes_are_not_numerals :
  finite infinity = false
  /\ forall P, exists edges,
       specify_edges P (with_radius (Float infinity)) = Ok edges
       /\ List.length edges = 4%nat
       /\ forall d, d ∈ edges ->
            exists s, d !! "shape" = Some (Str s) /\ is_shape s = false.
Proof.
  split; [ reflexivity | ]. intros P. eexists. split.
  { exact (specify_edges_returns P _ _ _ _ _
             (with_radius_configured (Float infinity)) eq_refl). }
  split; [ reflexivity | ].
  intros d Hd. apply list_elem_of_fmap in Hd as (e & -> & He).
  exists (shape_string (edge_shape e)). split; [ reflexivity | ].
  pose proof (edges_of_shape_length P _ _ _ _ He) as Hlen.
  destruct (edges_of_shapes P _ _ _ _ He) as (a & b & Hshape & _).
  destruct (is_shape (shape_string (edge_shape e))) eqn:His; [ | reflexivity ].
  assert (Hne : edge_shape e <> []).
  { intros Hnil. rewrite Hnil in Hlen. discriminate Hlen. }
  destruct (is_shape_iff_finite _ Hne) as [Hall _]. specialize (Hall His).
  clear His. rename Hall into His.
  destruct (edge_shape e) as [| p pts] eqn:Hpts; [ discriminate Hlen | ].
  destruct (His p (list_elem_of_here _ _)) as [Hfin _].
  assert (Hp : p ∈ sample P infinity <$> linspace a b 40).
  { rewrite <- Hshape. apply list_elem_of_here. }
  apply list_elem_of_fmap in Hp as (t & -> & _).
  cbn [sample fst] in Hfin. now rewrite mul_infinity_not_finite in Hfin.
Qed.

(** C8: without a radius both methods raise [KeyError('radius')], which is
    not a [ConfigurationError]; with a radius only, [specify_nodes]
    returns. *)
Lemma no_radius_is_not_ConfigurationError :
  first_missing required_keys (additional_params no_radius) = Some "radius"
  /\ (forall P, specify_nodes P no_radius = Err (KeyError "radius"))
  /\ (forall P, specify_edges P no_radius = Err (KeyError "radius"))
  /\ exn_class (KeyError "radius") <> "ConfigurationError"
  /\ (forall P, is_ok (specify_nodes P (radius_only (Int 40))) = true).
Proof. repeat split; discriminate. Qed.

(** C9: with the default parameters the [x] of the first node is the string
    ['0'] and the [length] of the first edge is a string as well, not a
    float; with the radius [-40] the length that is printed is negative. *)
Lemma descriptor_attributes_are_strings :
  (forall P, exists d rest,
     specify_nodes P net_params = Ok (d :: rest)
     /\ d !! "x" = Some (Str "0") /\ is_float (Str "0") = false)
  /\ (forall P, exists d rest s,
        specify_edges P net_params = Ok (d :: rest)
        /\ d !! "length" = Some (Str s) /\ is_float (Str s) = false)
  /\ (forall P, exists d rest len,
        specify_edges P (with_radius (Int (- 40))) = Ok (d :: rest)
        /\ d !! "length" = Some (Str (repr_float P len))
        /\ (len <? 0)%float = true).
Proof.
  split; [ | split ].
  - intros P. eexists _, _. split; [ reflexivity | ]. split; reflexivity.
  - intros P. eexists _, _, _. split.
    { exact (specify_edges_returns P _ _ _ _ _ default_configured eq_refl). }
    split; reflexivity.
  - intros P. eexists _, _, _. split.
    { eapply specify_edges_returns;
        [ apply with_radius_configured | vm_compute; reflexivity ]. }
    split; [ reflexivity | ]. vm_compute. reflexivity.
Qed.

(** ** The default parameters on the platform of the table *)




Lemma default_edges_returned :
  specify_edges table_platform net_params
  = Ok (edge_dict table_platform <$> edges_of table_platform 40 (Int 1) (Int 30)).
Proof.
  exact (specify_edges_returns table_platform net_params (Int 40) (Int 1)
           (Int 30) 40%float default_configured eq_refl).
Qed.

Lemma shape_strings_two_decimals_witness :
  specify_edges table_platform net_params
  = Ok (edge_dict table_platform
          <$> edges_of table_platform 40 (Int 1) (Int 30))
  /\ forall d,
       d ∈ edge_dict table_platform
             <$> edges_of table_platform 40 (Int 1) (Int 30) ->
       exists s pts r rf a b,
         d !! "shape" = Some (Str s) /\ List.length pts = 40%nat
         /\ additional_params net_params !! "radius" = Some r
         /\ to_float r = Ok rf
         /\ pts = sample table_platform rf <$> linspace a b 40
         /\ (a, b) ∈ [ (turn_m1, turn_0); (turn_0, turn_1);
                       (turn_1, turn_2); (turn_2, turn_3) ]
         /\ split_on " " s = pair_string <$> pts
         /\ (forall p, p ∈ pts ->
               split_on "," (pair_string p) = [format_2f p.1; format_2f p.2]
               /\ forall c, c ∈ [p.1; p.2] ->
                    if finite c then is_2f (format_2f c) = true
                    else format_2f c ∈ ["inf"; "-inf"; "nan"])
         /\ (is_shape s = true
             <-> forall p, p ∈ pts -> finite p.1 = true /\ finite p.2 = true).
Proof.
  split; [ exact default_edges_returned | ].
  exact (shape_strings_two_decimals table_platform net_params _
           default_edges_returned).
Defined.

Lemma absent_parameter_raises_KeyError_witness :
  first_missing required_keys (additional_params (radius_only (Int 40)))
  = Some "num_lanes"
  /\ specify_edges table_platform (radius_only (Int 40))
     = match additional_params (radius_only (Int 40)) !! "radius" with
       | None => Err (KeyError "radius")
       | Some r =>
           match to_float r with
           | Err _ => Err (OverflowError "int too large to convert to float")
           | Ok _ => Err (KeyError "num_lanes")
           end
       end
  /\ (forall r, additional_params (radius_only (Int 40)) !! "radius" = Some r ->
        is_ok (to_float r) = false -> exists z, r = Int z)
  /\ specify_nodes table_platform (radius_only (Int 40))
     = match additional_params (radius_only (Int 40)) !! "radius" with
       | None => Err (KeyError "radius")
       | Some r => Ok (node_dict table_platform <$> ring_nodes r)
       end
  /\ forall e,
       specify_edges table_platform (radius_only (Int 40)) = Err e
       \/ specify_nodes table_platform (radius_only (Int 40)) = Err e ->
       exn_class e <> "ConfigurationError".
Proof.
  split; [ reflexivity | ].
  apply (absent_parameter_raises_KeyError table_platform
           (radius_only (Int 40)) "num_lanes").
  reflexivity.
Defined.

Lemma descriptors_hold_reprs_witness :
  configured net_params (Int 40) (Int 1) (Int 30)
  /\ (exists nodes,
        specify_nodes table_platform net_params = Ok nodes
        /\ List.length nodes = 4%nat
        /\ forall d, d ∈ nodes ->
             map_Forall (fun _ v => is_str v = true) d
             /\ exists nx ny,
                  d !! "x" = Some (Str (repr table_platform nx))
                  /\ d !! "y" = Some (Str (repr table_platform ny))
                  /\ nx ∈ [Int 0; Int 40; neg (Int 40)]
                  /\ ny ∈ [Int 0; Int 40; neg (Int 40)])
  /\ match to_float (Int 40) with
     | Err e => specify_edges table_platform net_params = Err e
     | Ok rf =>
         exists edges,
           specify_edges table_platform net_params = Ok edges
           /\ List.length edges = 4%nat
           /\ forall d, d ∈ edges ->
                map_Forall (fun _ v => is_str v = true) d
                /\ d !! "length"
                   = Some (Str (repr table_platform
                                  (Float (rf * 0x1.921fb54442d18p+1 / 2))))
                /\ d !! "numLanes" = Some (Str (repr table_platform (Int 1)))
                /\ d !! "speed" = Some (Str (repr table_platform (Int 30)))
     end.
Proof.
  split; [ exact default_configured | ].
  exact (descriptors_hold_reprs table_platform net_params (Int 40) (Int 1)
           (Int 30) default_configured).
Defined.

Lemma consecutive_shapes_meet_witness :
  specify_edges table_platform net_params
  = Ok (edge_dict table_platform
          <$> edges_of table_platform 40 (Int 1) (Int 30))
  /\ exists e0 e1 e2 e3 rf,
       edge_dict table_platform <$> edges_of table_platform 40 (Int 1) (Int 30)
       = edge_dict table_platform <$> [e0; e1; e2; e3]
       /\ edge_to e0 = edge_from e1 /\ edge_to e1 = edge_from e2
       /\ edge_to e2 = edge_from e3 /\ edge_to e3 = edge_from e0
       /\ (forall ea eb, (ea, eb) ∈ [(e0, e1); (e1, e2); (e2, e3)] ->
             exists pt sa sb item,
               last (edge_shape ea) = Some pt /\ head (edge_shape eb) = Some pt
               /\ edge_dict table_platform ea !! "shape" = Some (Str sa)
               /\ edge_dict table_platform eb !! "shape" = Some (Str sb)
               /\ last (split_on " " sa) = Some item
               /\ head (split_on " " sb) = Some item)
       /\ last (edge_shape e3) = Some (sample table_platform rf turn_3)
       /\ head (edge_shape e0) = Some (sample table_platform rf turn_m1).
Proof.
  split; [ exact default_edges_returned | ].
  exact (consecutive_shapes_meet table_platform net_params _
           default_edges_returned).
Defined.

Lemma spelled_points_near_samples_witness :
  specify_edges table_platform net_params
  = Ok (edge_dict table_platform
          <$> edges_of table_platform 40 (Int 1) (Int 30))
  /\ forall d,
       d ∈ edge_dict table_platform
             <$> edges_of table_platform 40 (Int 1) (Int 30) ->
       exists s pts r rf a b,
         d !! "shape" = Some (Str s) /\ List.length pts = 40%nat
         /\ additional_params net_params !! "radius" = Some r
         /\ to_float r = Ok rf
         /\ pts = sample table_platform rf <$> linspace a b 40
         /\ (a, b) ∈ [ (turn_m1, turn_0); (turn_0, turn_1);
                       (turn_1, turn_2); (turn_2, turn_3) ]
         /\ split_on " " s = pair_string <$> pts
         /\ forall p, p ∈ pts ->
              read_pair (pair_string p) = spelled p
              /\ (is_Some (spelled p)
                  <-> finite p.1 = true /\ finite p.2 = true)
              /\ forall q, spelled p = Some q ->
                   (Rabs (dec2_value q.1 - float_value p.1) <= 1 / 200)%R
                   /\ (Rabs (dec2_value q.2 - float_value p.2) <= 1 / 200)%R.
Proof.
  split; [ exact default_edges_returned | ].
  exact (spelled_points_near_samples table_platform net_params _
           default_edges_returned).
Defined.

Lemma edge_starts_follow_the_sign_of_the_radius_witness :
  additional_params (with_radius (Int (- 40))) !! "radius" = Some (Int (- 40))
  /\ (- 1000 <= - 40 <= 1000)%Z
  /\ exists o1 o2 o3,
       specify_edge_starts (with_radius (Int (- 40)))
       = Ok [ ("edge0", Int 0); ("edge1", Float o1); ("edge2", Float o2);
              ("edge3", Float o3) ]
       /\ ((0 <? o1)%float && (o1 <? o2)%float && (o2 <? o3)%float = true
           <-> (0 < - 40)%Z)
       /\ ((o1 <? 0)%float && (o2 <? o1)%float && (o3 <? o2)%float = true
           <-> (- 40 < 0)%Z)
       /\ ((o1 =? 0)%float && (o2 =? 0)%float && (o3 =? 0)%float = true
           <-> (- 40)%Z = 0%Z).
Proof.
  split; [ reflexivity | ]. split; [ lia | ].
  apply (edge_starts_follow_the_sign_of_the_radius (with_radius (Int (- 40)))
           (- 40)); [ reflexivity | lia ].
Defined.

End OnParameters.
